(** * The parameter file of reprounzip: download, version gate, bundled fallback

    Shallow embedding of [reprounzip/parameters.py].  Python values that the
    module handles are JSON documents, so one type [json] stands for both;
    Python's [None] is [JNull], a [dict] is [JObj], a text string is [JStr]
    (its UTF-8 bytes). *)

From Stdlib Require Import String Ascii List ZArith Bool Arith Lia.
Import ListNotations.
Local Open Scope string_scope.
Local Open Scope nat_scope.

Set Warnings "-register-all".

(** ** Python values *)

Inductive json : Type :=
| JNull
| JBool (b : bool)
| JNum (lexeme : string)
| JStr (s : string)
| JArr (items : list json)
| JObj (items : list (string * json)).

Definition dict := list (string * json).

(** [d[k] = v] on a dict: an existing key keeps its place and takes the new
    value, a new key goes last. *)
Fixpoint dict_set (d : dict) (k : string) (v : json) : dict :=
  match d with
  | [] => [(k, v)]
  | (k', v') :: r =>
      if String.eqb k k' then (k, v) :: r else (k', v') :: dict_set r k v
  end.

Fixpoint dict_lookup (d : dict) (k : string) : option json :=
  match d with
  | [] => None
  | (k', v) :: r => if String.eqb k k' then Some v else dict_lookup r k
  end.

(** [d.get(k, default)] *)
Definition dict_get (d : dict) (k : string) (default : json) : json :=
  match dict_lookup d k with
  | Some v => v
  | None => default
  end.

Definition dict_keys (d : dict) : list string := map fst d.

(** [x is None] *)
Definition is_None (v : json) : bool :=
  match v with JNull => true | _ => false end.

(** ** Characters and strings *)

Definition dquote : ascii := "034"%char.
Definition backslash : ascii := "092"%char.
Definition nl : string := String "010"%char EmptyString.

Definition code (c : ascii) : nat := nat_of_ascii c.

Definition is_digit (c : ascii) : bool := (48 <=? code c) && (code c <=? 57).
Definition is_lower (c : ascii) : bool := (97 <=? code c) && (code c <=? 122).

(** [s.startswith(p)] *)
Definition startswith (s p : string) : bool := String.prefix p s.

Fixpoint drop (n : nat) (s : string) : string :=
  match n, s with
  | S n', String _ r => drop n' r
  | _, _ => s
  end.

Fixpoint string_rev_app (acc s : string) : string :=
  match acc with
  | EmptyString => s
  | String c r => string_rev_app r (String c s)
  end.

(** ** [json.loads]

    The decoder of Python's [json] module: the grammar of RFC 8259 plus the
    three constants [NaN], [Infinity] and [-Infinity]; a failure ([None]
    here) is Python's [ValueError]. *)

Definition is_ws (c : ascii) : bool :=
  match code c with
  | 32 | 9 | 10 | 13 => true
  | _ => false
  end.

Fixpoint skip_ws (s : string) : string :=
  match s with
  | String c r => if is_ws c then skip_ws r else s
  | EmptyString => s
  end.

Definition hex_digit (c : ascii) : option N :=
  let n := code c in
  if (48 <=? n) && (n <=? 57) then Some (N.of_nat (n - 48))
  else if (97 <=? n) && (n <=? 102) then Some (N.of_nat (n - 87))
  else if (65 <=? n) && (n <=? 70) then Some (N.of_nat (n - 55))
  else None.

Definition hex4 (a b c d : ascii) : option N :=
  match hex_digit a, hex_digit b, hex_digit c, hex_digit d with
  | Some x, Some y, Some z, Some w => Some (((x * 16 + y) * 16 + z) * 16 + w)%N
  | _, _, _, _ => None
  end.

Definition byte (n : N) : ascii := ascii_of_N n.

(** The UTF-8 bytes of a code point. *)
Definition utf8 (n : N) (tail : string) : string :=
  if (n <? 128)%N then String (byte n) tail
  else if (n <? 2048)%N then
    String (byte (192 + n / 64)) (String (byte (128 + n mod 64)) tail)
  else if (n <? 65536)%N then
    String (byte (224 + n / 4096))
      (String (byte (128 + (n / 64) mod 64))
         (String (byte (128 + n mod 64)) tail))
  else
    String (byte (240 + n / 262144))
      (String (byte (128 + (n / 4096) mod 64))
         (String (byte (128 + (n / 64) mod 64))
            (String (byte (128 + n mod 64)) tail))).

Definition simple_escape (c : ascii) : option ascii :=
  match code c with
  | 34 => Some dquote
  | 92 => Some backslash
  | 47 => Some "/"%char
  | 98 => Some "008"%char
  | 102 => Some "012"%char
  | 110 => Some "010"%char
  | 114 => Some "013"%char
  | 116 => Some "009"%char
  | _ => None
  end.

Definition is_high_surrogate (n : N) : bool := ((55296 <=? n) && (n <=? 56319))%N.
Definition is_low_surrogate (n : N) : bool := ((56320 <=? n) && (n <=? 57343))%N.

Definition with_char (c : ascii) (r : option (string * string)) :=
  match r with
  | Some (body, rest) => Some (String c body, rest)
  | None => None
  end.

Definition with_code (n : N) (r : option (string * string)) :=
  match r with
  | Some (body, rest) => Some (utf8 n body, rest)
  | None => None
  end.

(** [py_scanstring], strict: [s] starts just after the opening quote; the
    result is the decoded string and what follows the closing quote. *)
Fixpoint scanstring (s : string) : option (string * string) :=
  match s with
  | EmptyString => None
  | String c r =>
      if Ascii.eqb c dquote then Some (EmptyString, r)
      else if Ascii.eqb c backslash then
        match r with
        | EmptyString => None
        | String e r1 =>
            if Ascii.eqb e "u"%char then
              match r1 with
              | String h1 (String h2 (String h3 (String h4 r2))) =>
                  match hex4 h1 h2 h3 h4 with
                  | None => None
                  | Some uni =>
                      match r2 with
                      | String b (String u (String l1 (String l2 (String l3 (String l4 r3))))) =>
                          if is_high_surrogate uni && Ascii.eqb b backslash
                             && Ascii.eqb u "u"%char
                          then
                            match hex4 l1 l2 l3 l4 with
                            | None => None
                            | Some uni2 =>
                                if is_low_surrogate uni2 then
                                  with_code (65536 + (uni - 55296) * 1024
                                             + (uni2 - 56320))%N
                                    (scanstring r3)
                                else with_code uni (scanstring r2)
                            end
                          else with_code uni (scanstring r2)
                      | _ => with_code uni (scanstring r2)
                      end
                  end
              | _ => None
              end
            else
              match simple_escape e with
              | Some ch => with_char ch (scanstring r1)
              | None => None
              end
        end
      else if code c <? 32 then None
      else with_char c (scanstring r)
  end.

Fixpoint take_digits (s : string) : string * string :=
  match s with
  | String c r =>
      if is_digit c then
        let (ds, rest) := take_digits r in (String c ds, rest)
      else (EmptyString, s)
  | EmptyString => (EmptyString, s)
  end.

(** The number pattern of the decoder: an optional minus sign, then 0 or a
    digit run that does not start with 0; an optional fraction (a dot and
    digits); an optional exponent (e or E, an optional sign, digits).  The
    result is the matched text and the rest. *)
Definition scan_int (s : string) : option (string * string) :=
  let '(sign, s1) :=
    match s with
    | String "-"%char r => ("-", r)
    | _ => ("", s)
    end in
  match s1 with
  | String c r =>
      if Ascii.eqb c "0"%char then Some (sign ++ "0", r)
      else if is_digit c then
        let (ds, rest) := take_digits r in Some (sign ++ String c ds, rest)
      else None
  | EmptyString => None
  end.

Definition scan_frac (s : string) : string * string :=
  match s with
  | String "."%char r =>
      match take_digits r with
      | (EmptyString, _) => ("", s)
      | (ds, rest) => (String "."%char ds, rest)
      end
  | _ => ("", s)
  end.

Definition scan_exp (s : string) : string * string :=
  match s with
  | String e r =>
      if Ascii.eqb e "e"%char || Ascii.eqb e "E"%char then
        let '(sign, r1) :=
          match r with
          | String "-"%char r' => ("-", r')
          | String "+"%char r' => ("+", r')
          | _ => ("", r)
          end in
        match take_digits r1 with
        | (EmptyString, _) => ("", s)
        | (ds, rest) => (String e (sign ++ ds), rest)
        end
      else ("", s)
  | EmptyString => ("", s)
  end.

Definition scan_number (s : string) : option (string * string) :=
  match scan_int s with
  | None => None
  | Some (i, r) =>
      let (f, r1) := scan_frac r in
      let (e, r2) := scan_exp r1 in
      Some (i ++ f ++ e, r2)
  end.

Definition scan_constant (s : string) : option (json * string) :=
  if startswith s "null" then Some (JNull, drop 4 s)
  else if startswith s "true" then Some (JBool true, drop 4 s)
  else if startswith s "false" then Some (JBool false, drop 5 s)
  else
    match scan_number s with
    | Some (lx, r) => Some (JNum lx, r)
    | None =>
        if startswith s "NaN" then Some (JNum "NaN", drop 3 s)
        else if startswith s "Infinity" then Some (JNum "Infinity", drop 8 s)
        else if startswith s "-Infinity" then Some (JNum "-Infinity", drop 9 s)
        else None
    end.

(** [scan_once], [JSONObject] and [JSONArray] of [json.decoder].  Each call
    spends one unit of fuel; twice the length of the text and one more is
    always enough ([scan_once_fuel] below). *)
Fixpoint scan_once (fuel : nat) (s : string) {struct fuel} : option (json * string) :=
  match fuel with
  | O => None
  | S f =>
      match s with
      | EmptyString => None
      | String c r =>
          if Ascii.eqb c dquote then
            match scanstring r with
            | Some (str, rest) => Some (JStr str, rest)
            | None => None
            end
          else if Ascii.eqb c "{"%char then
            match skip_ws r with
            | String c1 r1 =>
                if Ascii.eqb c1 "}"%char then Some (JObj [], r1)
                else if Ascii.eqb c1 dquote then JSONObject f [] r1
                else None
            | EmptyString => None
            end
          else if Ascii.eqb c "["%char then
            match skip_ws r with
            | String c1 r1 =>
                if Ascii.eqb c1 "]"%char then Some (JArr [], r1)
                else JSONArray f [] (String c1 r1)
            | EmptyString => None
            end
          else scan_constant s
      end
  end

with JSONObject (fuel : nat) (pairs : dict) (s : string) {struct fuel}
  : option (json * string) :=
  match fuel with
  | O => None
  | S f =>
      match scanstring s with
      | None => None
      | Some (key, r) =>
          match skip_ws r with
          | String ":"%char r1 =>
              match scan_once f (skip_ws r1) with
              | None => None
              | Some (value, r2) =>
                  let pairs' := dict_set pairs key value in
                  match skip_ws r2 with
                  | String c r3 =>
                      if Ascii.eqb c "}"%char then Some (JObj pairs', r3)
                      else if Ascii.eqb c ","%char then
                        match skip_ws r3 with
                        | String q r4 =>
                            if Ascii.eqb q dquote then JSONObject f pairs' r4
                            else None
                        | EmptyString => None
                        end
                      else None
                  | EmptyString => None
                  end
              end
          | _ => None
          end
      end
  end

with JSONArray (fuel : nat) (values : list json) (s : string) {struct fuel}
  : option (json * string) :=
  match fuel with
  | O => None
  | S f =>
      match scan_once f s with
      | None => None
      | Some (value, r) =>
          match skip_ws r with
          | String c r1 =>
              if Ascii.eqb c "]"%char then Some (JArr (values ++ [value]), r1)
              else if Ascii.eqb c ","%char then
                JSONArray f (values ++ [value]) (skip_ws r1)
              else None
          | EmptyString => None
          end
      end
  end.

(** [json.loads(s)]: one value between optional white space, nothing after. *)
Definition json_loads (s : string) : option json :=
  match scan_once (2 * String.length s + 1) (skip_ws s) with
  | Some (v, r) =>
      match skip_ws r with
      | EmptyString => Some v
      | _ => None
      end
  | None => None
  end.

(** In the literals below a backquote stands for the double quote. *)
Fixpoint q (s : string) : string :=
  match s with
  | String c r => String (if Ascii.eqb c "`"%char then dquote else c) (q r)
  | EmptyString => EmptyString
  end.

Definition ln (s : string) : string := s ++ nl.

Definition bundled_lines : list string := [
  ln "{";
  ln "  `version`: `1.1.0`,";
  ln "  `busybox_url`: {";
  ln "    `x86_64`: `https://s3.amazonaws.com/reprozip-files/busybox-x86_64`,";
  ln "    `i686`: `https://s3.amazonaws.com/reprozip-files/busybox-i686`";
  ln "  },";
  ln "  `rpzsudo_url`: {";
  "    `x86_64`: `https://github.com/remram44/static-sudo/releases/download/";
  ln "current/rpzsudo-x86_64`,";
  "    `i686`: `https://github.com/remram44/static-sudo/releases/download/cu";
  ln "rrent/rpzsudo-i686`";
  ln "  },";
  ln "  `docker_images`: {";
  ln "    `default`: {";
  ln "      `distribution`: `debian`,";
  ln "      `image`: `debian:jessie`,";
  ln "      `name`: `Debian 8 'Jessie'`";
  ln "    },";
  ln "    `images`: [";
  ln "      {";
  ln "        `name`: `^ubuntu$`,";
  ln "        `versions`: [";
  ln "          {";
  ln "            `version`: `^12\\.04$`,";
  ln "            `distribution`: `ubuntu`,";
  ln "            `image`: `ubuntu:12.04`,";
  ln "            `name`: `Ubuntu 12.04 'Precise'`";
  ln "          },";
  ln "          {";
  ln "            `version`: `^14\\.04$`,";
  ln "            `distribution`: `ubuntu`,";
  ln "            `image`: `ubuntu:14.04`,";
  ln "            `name`: `Ubuntu 14.04 'Trusty'`";
  ln "          },";
  ln "          {";
  ln "            `version`: `^14\\.10$`,";
  ln "            `distribution`: `ubuntu`,";
  ln "            `image`: `ubuntu:14.10`,";
  ln "            `name`: `Ubuntu 14.10 'Utopic'`";
  ln "          },";
  ln "          {";
  ln "            `version`: `^15\\.04$`,";
  ln "            `distribution`: `ubuntu`,";
  ln "            `image`: `ubuntu:15.04`,";
  ln "            `name`: `Ubuntu 15.04 'Vivid'`";
  ln "          },";
  ln "          {";
  ln "            `version`: `^15\\.10$`,";
  ln "            `distribution`: `ubuntu`,";
  ln "            `image`: `ubuntu:15.10`,";
  ln "            `name`: `Ubuntu 15.10 'Wily'`";
  ln "          },";
  ln "          {";
  ln "            `version`: `^16\\.04$`,";
  ln "            `distribution`: `ubuntu`,";
  ln "            `image`: `ubuntu:16.04`,";
  ln "            `name`: `Ubuntu 16.04 'Xenial'`";
  ln "          }";
  ln "        ],";
  ln "        `default`: {";
  ln "          `distribution`: `ubuntu`,";
  ln "          `image`: `ubuntu:15.10`,";
  ln "          `name`: `Ubuntu 15.10 'Wily'`";
  ln "        }";
  ln "      },";
  ln "      {";
  ln "        `name`: `^debian$`,";
  ln "        `versions`: [";
  ln "          {";
  ln "            `version`: `^(6(\\.|$))|(squeeze$)`,";
  ln "            `distribution`: `debian`,";
  ln "            `image`: `debian:squeeze`,";
  ln "            `name`: `Debian 6 'Squeeze'`";
  ln "          },";
  ln "          {";
  ln "            `version`: `^(7(\\.|$))|(wheezy$)`,";
  ln "            `distribution`: `debian`,";
  ln "            `image`: `debian:wheezy`,";
  ln "            `name`: `Debian 7 'Wheezy'`";
  ln "          },";
  ln "          {";
  ln "            `version`: `^(8(\\.|$))|(jessie$)`,";
  ln "            `distribution`: `debian`,";
  ln "            `image`: `debian:jessie`,";
  ln "            `name`: `Debian 8 'Jessie'`";
  ln "          },";
  ln "          {";
  ln "            `version`: `^(9(\\.|$))|(stretch$)`,";
  ln "            `distribution`: `debian`,";
  ln "            `image`: `debian:stretch`,";
  ln "            `name`: `Debian 9 'Stretch'`";
  ln "          }";
  ln "        ],";
  ln "        `default`: {";
  ln "          `distribution`: `debian`,";
  ln "          `image`: `debian:jessie`,";
  ln "          `name`: `Debian 8 'Jessie'`";
  ln "        }";
  ln "      },";
  ln "      {";
  ln "        `name`: `^centos( linux)?$`,";
  ln "        `versions`: [";
  ln "          {";
  ln "            `version`: `^5(\\.|$)`,";
  ln "            `distribution`: `centos`,";
  ln "            `image`: `centos:centos5`,";
  ln "            `name`: `CentOS 5`";
  ln "          },";
  ln "          {";
  ln "            `version`: `^6(\\.|$)`,";
  ln "            `distribution`: `centos`,";
  ln "            `image`: `centos:centos6`,";
  ln "            `name`: `CentOS 6`";
  ln "          },";
  ln "          {";
  ln "            `version`: `^7(\\.|$)`,";
  ln "            `distribution`: `centos`,";
  ln "            `image`: `centos:centos7`,";
  ln "            `name`: `CentOS 7`";
  ln "          }";
  ln "        ],";
  ln "        `default`: {";
  ln "          `distribution`: `centos`,";
  ln "          `image`: `centos:centos7`,";
  ln "          `name`: `CentOS 7`";
  ln "        }";
  ln "      }";
  ln "    ]";
  ln "  },";
  ln "  `vagrant_boxes`: {";
  ln "    `default`: {";
  ln "      `distribution`: `debian`,";
  ln "        `architectures`: {";
  ln "          `i686`: `remram/debian-8-i386`,";
  ln "          `x86_64`: `remram/debian-8-amd64`";
  ln "        },";
  ln "      `name`: `Debian 8 'Jessie'`";
  ln "    },";
  ln "    `boxes`: [";
  ln "      {";
  "        `name`: `^ubuntu$`,";
  ln "        `versions`: [";
  ln "          {";
  ln "            `version`: `^12\\.04$`,";
  ln "            `distribution`: `ubuntu`,";
  ln "            `architectures`: {";
  ln "              `i686`: `hashicorp/precise32`,";
  ln "              `x86_64`: `hashicorp/precise64`";
  ln "            },";
  ln "            `name`: `Ubuntu 12.04 'Precise'`";
  ln "          },";
  ln "          {";
  ln "            `version`: `^14\\.04$`,";
  ln "            `distribution`: `ubuntu`,";
  ln "            `architectures`: {";
  ln "              `i686`: `ubuntu/trusty32`,";
  ln "              `x86_64`: `ubuntu/trusty64`";
  ln "            },";
  ln "            `name`: `Ubuntu 14.04 'Trusty'`";
  ln "          },";
  ln "          {";
  ln "            `version`: `^15\\.04$`,";
  ln "            `distribution`: `ubuntu`,";
  ln "            `architectures`: {";
  ln "              `i686`: `ubuntu/vivid32`,";
  ln "              `x86_64`: `ubuntu/vivid64`";
  ln "            },";
  ln "            `name`: `Ubuntu 15.04 'Vivid'`";
  ln "          },";
  ln "          {";
  ln "            `version`: `^15\\.10$`,";
  ln "            `distribution`: `ubuntu`,";
  ln "            `architectures`: {";
  ln "              `i686`: `ubuntu/wily32`,";
  ln "              `x86_64`: `ubuntu/wily64`";
  ln "            },";
  ln "            `name`: `Ubuntu 15.10 'Wily'`";
  ln "          },";
  ln "          {";
  ln "            `version`: `^16\\.04$`,";
  ln "            `distribution`: `ubuntu`,";
  ln "            `architectures`: {";
  ln "              `i686`: `bento/ubuntu-16.04-i386`,";
  ln "              `x86_64`: `bento/ubuntu-16.04`";
  ln "            },";
  ln "            `name`: `Ubuntu 16.04 'Xenial'`";
  ln "          }";
  ln "        ],";
  ln "        `default`: {";
  ln "          `distribution`: `ubuntu`,";
  ln "          `architectures`: {";
  ln "            `i686`: `bento/ubuntu-16.04-i386`,";
  ln "            `x86_64`: `bento/ubuntu-16.04`";
  ln "          },";
  ln "          `name`: `Ubuntu 16.04 'Xenial'`";
  ln "        }";
  ln "      },";
  ln "      {";
  ln "        `name`: `^debian$`,";
  ln "        `versions`: [";
  ln "          {";
  ln "            `version`: `^(7(\\.|$))|(wheezy$)`,";
  ln "            `distribution`: `debian`,";
  ln "            `architectures`: {";
  ln "              `i686`: `remram/debian-7-i386`,";
  ln "              `x86_64`: `remram/debian-7-amd64`";
  ln "            },";
  ln "            `name`: `Debian 7 'Wheezy'`";
  ln "          },";
  ln "          {";
  ln "            `version`: `^(8(\\.|$))|(jessie$)`,";
  ln "            `distribution`: `debian`,";
  ln "            `architectures`: {";
  ln "              `i686`: `remram/debian-8-i386`,";
  ln "              `x86_64`: `remram/debian-8-amd64`";
  ln "            },";
  ln "            `name`: `Debian 8 'Jessie'`";
  ln "          },";
  ln "          {";
  ln "            `version`: `^(9(\\.|$))|(stretch$)`,";
  ln "            `distribution`: `debian`,";
  ln "            `architectures`: {";
  ln "              `i686`: `remram/debian-9-i386`,";
  ln "              `x86_64`: `remram/debian-9-amd64`";
  ln "            },";
  ln "            `name`: `Debian 9 'Stretch'`";
  ln "          }";
  ln "        ],";
  ln "        `default`: {";
  ln "          `distribution`: `debian`,";
  ln "            `architectures`: {";
  ln "              `i686`: `remram/debian-8-i386`,";
  ln "              `x86_64`: `remram/debian-8-amd64`";
  ln "            },";
  ln "          `name`: `Debian 8 'Jessie'`";
  ln "        }";
  ln "      },";
  ln "      {";
  ln "        `name`: `^centos( linux)?$`,";
  ln "        `versions`: [";
  ln "          {";
  ln "            `version`: `^5\\.`,";
  ln "            `distribution`: `centos`,";
  ln "            `architectures`: {";
  ln "              `i686`: `bento/centos-5.11-i386`,";
  ln "              `x86_64`: `bento/centos-5.11`";
  ln "            },";
  ln "            `name`: `CentOS 5.11`";
  ln "          },";
  ln "          {";
  ln "            `version`: `^6\\.`,";
  ln "            `distribution`: `centos`,";
  ln "            `architectures`: {";
  ln "              `i686`: `bento/centos-6.7-i386`,";
  ln "              `x86_64`: `bento/centos-6.7`";
  ln "            },";
  ln "            `name`: `CentOS 6.7`";
  ln "          },";
  ln "          {";
  ln "            `version`: `^7\\.`,";
  ln "            `distribution`: `centos`,";
  ln "            `architectures`: {";
  ln "              `x86_64`: `bento/centos-7.2`";
  ln "            },";
  ln "            `name`: `CentOS 7.2`";
  ln "          }";
  ln "        ],";
  ln "        `default`: {";
  ln "          `distribution`: `centos`,";
  ln "          `architectures`: {";
  ln "            `i686`: `bento/centos-6.7-i386`,";
  ln "            `x86_64`: `bento/centos-6.7`";
  ln "          },";
  ln "          `name`: `CentOS 6.7`";
  ln "        }";
  ln "      },";
  ln "      {";
  ln "        `name`: `^fedora$`,";
  ln "        `versions`: [";
  ln "          {";
  ln "            `version`: `^22$`,";
  ln "            `distribution`: `fedora`,";
  ln "            `architectures`: {";
  ln "              `i686`: `remram/fedora-22-i386`,";
  ln "              `x86_64`: `remram/fedora-22-amd64`";
  ln "            },";
  ln "            `name`: `Fedora 22`";
  ln "          },";
  ln "          {";
  ln "            `version`: `^23$`,";
  ln "            `distribution`: `fedora`,";
  ln "            `architectures`: {";
  ln "              `i686`: `remram/fedora-23-i386`,";
  ln "              `x86_64`: `remram/fedora-23-amd64`";
  ln "            },";
  ln "            `name`: `Fedora 23`";
  ln "          },";
  ln "          {";
  ln "            `version`: `^24$`,";
  ln "            `distribution`: `fedora`,";
  ln "            `architectures`: {";
  ln "              `i686`: `remram/fedora-24-i386`,";
  ln "              `x86_64`: `remram/fedora-24-amd64`";
  ln "            },";
  ln "            `name`: `Fedora 24`";
  ln "          }";
  ln "        ],";
  ln "        `default`: {";
  ln "          `distribution`: `fedora`,";
  ln "          `architectures`: {";
  ln "            `i686`: `remram/fedora-24-i386`,";
  ln "            `x86_64`: `remram/fedora-24-amd64`";
  ln "          },";
  ln "          `name`: `Fedora 24`";
  ln "        }";
  ln "      }";
  ln "    ]";
  ln "  },";
  ln "  `vagrant_boxes_x`: {";
  ln "    `default`: {";
  ln "      `distribution`: `debian`,";
  ln "        `architectures`: {";
  ln "          `i686`: `remram/debian-8-amd64-x`,";
  ln "          `x86_64`: `remram/debian-8-amd64-x`";
  ln "        },";
  ln "      `name`: `Debian 8 'Jessie'`";
  ln "    },";
  ln "    `boxes`: [";
  ln "      {";
  "        `name`: `^ubuntu$`,";
  ln "        `versions`: [";
  ln "          {";
  ln "            `version`: `^16\\.04$`,";
  ln "            `distribution`: `ubuntu`,";
  ln "            `architectures`: {";
  ln "              `i686`: `remram/ubuntu-1604-amd64-x`,";
  ln "              `x86_64`: `remram/ubuntu-1604-amd64-x`";
  ln "            },";
  ln "            `name`: `Ubuntu 16.04 'Xenial'`";
  ln "          }";
  ln "        ],";
  ln "        `default`: {";
  ln "          `distribution`: `ubuntu`,";
  ln "          `architectures`: {";
  ln "            `i686`: `remram/ubuntu-1604-amd64-x`,";
  ln "            `x86_64`: `remram/ubuntu-1604-amd64-x`";
  ln "          },";
  ln "          `name`: `Ubuntu 16.04 'Xenial'`";
  ln "        }";
  ln "      },";
  ln "      {";
  ln "        `name`: `^debian$`,";
  ln "        `versions`: [";
  ln "          {";
  ln "            `version`: `^(8(\\.|$))|(jessie$)`,";
  ln "            `distribution`: `debian`,";
  ln "            `architectures`: {";
  ln "              `i686`: `remram/debian-8-amd64-x`,";
  ln "              `x86_64`: `remram/debian-8-amd64-x`";
  ln "            },";
  ln "            `name`: `Debian 8 'Jessie'`";
  ln "          }";
  ln "        ],";
  ln "        `default`: {";
  ln "          `distribution`: `debian`,";
  ln "            `architectures`: {";
  ln "              `i686`: `remram/debian-8-amd64-x`,";
  ln "              `x86_64`: `remram/debian-8-amd64-x`";
  ln "            },";
  ln "          `name`: `Debian 8 'Jessie'`";
  ln "        }";
  ln "      }";
  ln "    ]";
  ln "  }";
  ln "}"
]%string.

(** The string the module ships, [bundled_parameters] (lines 89-465). *)
Definition bundled_parameters : string := q (String.concat "" bundled_lines).

(** ** [distutils.version.LooseVersion]

    A version string is cut into digit runs, runs of lower-case letters and
    whatever stands between them, the dots dropped; digit runs become
    integers.  Two versions compare as Python 2 compares the two lists: item
    by item, an integer before any string, a proper prefix before the longer
    list. *)

Inductive cclass : Type := Digits | Letters | Dot | Other.

Definition classify (c : ascii) : cclass :=
  if is_digit c then Digits
  else if is_lower c then Letters
  else if Ascii.eqb c "."%char then Dot
  else Other.

Definition same_run (a b : cclass) : bool :=
  match a, b with
  | Digits, Digits | Letters, Letters | Other, Other => true
  | _, _ => false
  end.

(** The pieces [component_re.split] finds, each with its class. *)
Fixpoint split_components (s : string) : list (cclass * string) :=
  match s with
  | EmptyString => []
  | String c r =>
      match split_components r with
      | (k, piece) :: rest =>
          if same_run (classify c) k then (k, String c piece) :: rest
          else (classify c, String c EmptyString) :: (k, piece) :: rest
      | [] => [(classify c, String c EmptyString)]
      end
  end.

(** [int(obj)] on a digit run *)
Fixpoint int_of_digits (acc : Z) (s : string) : Z :=
  match s with
  | EmptyString => acc
  | String c r => int_of_digits (acc * 10 + Z.of_nat (code c - 48)) r
  end.

Inductive component : Type :=
| CInt (n : Z)
| CStr (s : string).

Fixpoint to_components (l : list (cclass * string)) : list component :=
  match l with
  | [] => []
  | (Dot, _) :: r => to_components r
  | (Digits, piece) :: r => CInt (int_of_digits 0 piece) :: to_components r
  | (_, piece) :: r => CStr piece :: to_components r
  end.

(** [LooseVersion(vstring).version] for a non-empty [vstring] *)
Definition LooseVersion (vstring : string) : list component :=
  to_components (split_components vstring).

Definition cmp_component (a b : component) : comparison :=
  match a, b with
  | CInt x, CInt y => Z.compare x y
  | CInt _, CStr _ => Lt
  | CStr _, CInt _ => Gt
  | CStr x, CStr y => String.compare x y
  end.

Fixpoint cmp_version (a b : list component) : comparison :=
  match a, b with
  | [], [] => Eq
  | [], _ :: _ => Lt
  | _ :: _, [] => Gt
  | x :: a', y :: b' =>
      match cmp_component x y with
      | Eq => cmp_version a' b'
      | c => c
      end
  end.

Definition version_le (a b : list component) : bool :=
  match cmp_version a b with Gt => false | _ => true end.

Definition version_lt (a b : list component) : bool :=
  match cmp_version a b with Lt => true | _ => false end.

(** [LooseVersion('1.1') <= ver < LooseVersion('1.2')] (line 71) *)
Definition compatible (ver : list component) : bool :=
  version_le (LooseVersion "1.1") ver && version_lt ver (LooseVersion "1.2").

(** ** The process and its surroundings *)

(** What the module reads from outside: the variable REPROZIP_PARAMETERS,
    the version of the running tool, the download collaborator (given the
    address and the cached copy, the text of the file it hands back, or
    [None] when it raises) and whether removing the cached file raises. *)
Record world : Type := {
  environ : option string;
  version : string;
  download_file : string -> option string -> option string;
  remove_raises : bool
}.

(** The module's global [parameters], the cached [parameters.json], the
    messages logged at info level and the addresses asked of the download
    collaborator, latest first. *)
Record state : Type := {
  parameters : json;
  cache : option string;
  log : list string;
  requests : list string
}.

Definition initial (c : option string) : state :=
  {| parameters := JNull; cache := c; log := []; requests := [] |}.

Definition set_parameters (st : state) (v : json) : state :=
  {| parameters := v; cache := cache st; log := log st; requests := requests st |}.

Definition set_cache (st : state) (c : option string) : state :=
  {| parameters := parameters st; cache := c; log := log st; requests := requests st |}.

Definition logging_info (st : state) (msg : string) : state :=
  {| parameters := parameters st; cache := cache st; log := msg :: log st;
     requests := requests st |}.

Definition request (st : state) (url : string) : state :=
  {| parameters := parameters st; cache := cache st; log := log st;
     requests := url :: requests st |}.

(** A call either returns or lets an exception it does not catch reach the
    caller (an AttributeError or a TypeError in this module); either way the
    state is what the call left behind. *)
Inductive outcome (A : Type) : Type :=
| Returned (a : A) (st : state)
| Raised (st : state).
Arguments Returned {A} a st.
Arguments Raised {A} st.

Definition final {A : Type} (o : outcome A) : state :=
  match o with
  | Returned _ st => st
  | Raised st => st
  end.

Definition returned {A : Type} (o : outcome A) : bool :=
  match o with
  | Returned _ _ => true
  | Raised _ => false
  end.

Definition default_url : string := "https://reprozip-stats.poly.edu/parameters/".

Definition msg_download : string :=
  "Can't download parameters.json, using bundled parameters".
Definition msg_load : string :=
  "Downloaded parameters.json doesn't load, using bundled parameters".
Definition msg_version (ver : string) : string :=
  "parameters.json has incompatible version " ++ ver
  ++ ", using bundled parameters".

(** [env_var and (env_var.startswith('http://') or
    env_var.startswith('https://'))] (lines 39-40) *)
Definition is_url (env_var : option string) : bool :=
  match env_var with
  | Some (String c r) =>
      startswith (String c r) "http://" || startswith (String c r) "https://"
  | _ => false
  end.

(** [env_var not in (None, '', '1', 'on', 'enabled', 'yes', 'true')]
    (line 44) *)
Definition not_enabled (env_var : option string) : bool :=
  match env_var with
  | None => false
  | Some v => negb (existsb (String.eqb v) [""; "1"; "on"; "enabled"; "yes"; "true"])
  end.

(** [parameters = json.loads(bundled_parameters)] (lines 45 and 77) *)
Definition use_bundled (st : state) : outcome unit :=
  match json_loads bundled_parameters with
  | Some v => Returned tt (set_parameters st v)
  | None => Raised st
  end.

(** Lines 70-75, once [parameters] holds the downloaded document. *)
Definition check_version (st : state) : outcome unit :=
  match parameters st with
  | JObj d =>
      match dict_get d "version" (JStr "1.0") with
      | JStr (String c r) =>
          let ver := String c r in
          if compatible (LooseVersion ver) then Returned tt st
          else use_bundled (logging_info st (msg_version ver))
      | _ => Raised st
      end
  | _ => Raised st
  end.

(** Lines 48-77: the download, the decoding and what follows them. *)
Definition download_parameters (w : world) (st : state) (url : string)
  : outcome unit :=
  let address := url ++ version w in
  let st := request st address in
  match download_file w address (cache st) with
  | None => use_bundled (logging_info st msg_download)
  | Some content =>
      let st := set_cache st (Some content) in
      match json_loads content with
      | None =>
          let st := logging_info st msg_load in
          let st := if remove_raises w then st else set_cache st None in
          use_bundled st
      | Some doc => check_version (set_parameters st doc)
      end
  end.

Definition update_parameters (w : world) (st : state) : outcome unit :=
  if negb (is_None (parameters st)) then Returned tt st
  else
    let url := default_url in
    let env_var := environ w in
    if is_url env_var then
      download_parameters w st (match env_var with Some v => v | None => url end)
    else if not_enabled env_var then use_bundled st
    else download_parameters w st url.

(** [parameters.get(section, None)] (line 86) *)
Definition lookup_section (st : state) (section : string) : outcome json :=
  match parameters st with
  | JObj d => Returned (dict_get d section JNull) st
  | _ => Raised st
  end.

Definition get_parameter (w : world) (st : state) (section : string)
  : outcome json :=
  if is_None (parameters st) then
    match update_parameters w st with
    | Returned _ st' => lookup_section st' section
    | Raised st' => Raised st'
    end
  else lookup_section st section.

(** A process: calls of [get_parameter] one after the other, each in the
    surroundings of its moment, until one raises. *)
Fixpoint run (calls : list (world * string)) (st : state) : state :=
  match calls with
  | [] => st
  | (w, section) :: rest =>
      match get_parameter w st section with
      | Returned _ st' => run rest st'
      | Raised st' => st'
      end
  end.

(** ** Resolution of a distribution to an image or a box *)

(** Modelled from the spec: the regular expressions of the catalogs.  The
    matching engine is not part of [parameters.py]; the spec (4.2) asks for
    an unanchored search in which [^] and [$] anchor where the pattern says
    so.  The syntax covered is the one the bundled catalogs use, plus the
    star and the plus: literal characters, the dot, a backslash before a
    punctuation character, [^], [$], groups, [|], [?], [*] and [+].
    Anything else makes the pattern malformed. *)
Inductive regex : Type :=
| Empty
| Chr (c : ascii)
| AnyChar
| Bol
| Eol
| Seq (a b : regex)
| Alt (a b : regex)
| Opt (a : regex)
| Star (a : regex)
| Plus (a : regex).

Definition is_alnum (c : ascii) : bool :=
  is_digit c || is_lower c || ((65 <=? code c) && (code c <=? 90)).

Definition is_special (c : ascii) : bool :=
  existsb (Ascii.eqb c)
    ["("; ")"; "|"; "?"; "*"; "+"; "["; "]"; "{"; "}"; "092"]%char.

Definition quantified (a : regex) (s : string) : regex * string :=
  match s with
  | String "?"%char r => (Opt a, r)
  | String "*"%char r => (Star a, r)
  | String "+"%char r => (Plus a, r)
  | _ => (a, s)
  end.

Fixpoint parse_alt (fuel : nat) (s : string) {struct fuel} : option (regex * string) :=
  match fuel with
  | O => None
  | S f =>
      match parse_seq f s with
      | Some (a, String "|"%char r) =>
          match parse_alt f r with
          | Some (b, rest) => Some (Alt a b, rest)
          | None => None
          end
      | other => other
      end
  end

with parse_seq (fuel : nat) (s : string) {struct fuel} : option (regex * string) :=
  match fuel with
  | O => None
  | S f =>
      match s with
      | EmptyString => Some (Empty, s)
      | String c r =>
          if Ascii.eqb c "|"%char || Ascii.eqb c ")"%char then Some (Empty, s)
          else
            match parse_atom f s with
            | None => None
            | Some (a, r1) =>
                let (a', r2) := quantified a r1 in
                match parse_seq f r2 with
                | Some (b, rest) => Some (Seq a' b, rest)
                | None => None
                end
            end
      end
  end

with parse_atom (fuel : nat) (s : string) {struct fuel} : option (regex * string) :=
  match fuel with
  | O => None
  | S f =>
      match s with
      | EmptyString => None
      | String c r =>
          if Ascii.eqb c "("%char then
            match parse_alt f r with
            | Some (a, String ")"%char rest) => Some (a, rest)
            | _ => None
            end
          else if Ascii.eqb c backslash then
            match r with
            | String e rest => if is_alnum e then None else Some (Chr e, rest)
            | EmptyString => None
            end
          else if Ascii.eqb c "."%char then Some (AnyChar, r)
          else if Ascii.eqb c "^"%char then Some (Bol, r)
          else if Ascii.eqb c "$"%char then Some (Eol, r)
          else if is_special c then None
          else Some (Chr c, r)
      end
  end.

(** [re.compile]: [None] for a malformed pattern.  The fuel, one unit a
    call, is always enough ([compile_fuel] below). *)
Definition compile (pattern : string) : option regex :=
  match parse_alt (3 * String.length pattern + 3) pattern with
  | Some (r, EmptyString) => Some r
  | _ => None
  end.

(** Backtracking match of [r] at the head of [s]; [bol] tells whether [s] is
    the whole subject, [k] is what must match afterwards. *)
Fixpoint matches (r : regex) (bol : bool) (s : string)
    (k : bool -> string -> bool) {struct r} : bool :=
  match r with
  | Empty => k bol s
  | Chr c =>
      match s with
      | String c' s' => Ascii.eqb c c' && k false s'
      | EmptyString => false
      end
  | AnyChar =>
      match s with
      | String c' s' => negb (Ascii.eqb c' "010"%char) && k false s'
      | EmptyString => false
      end
  | Bol => bol && k bol s
  | Eol =>
      match s with
      | EmptyString => k bol s
      | String "010"%char EmptyString => k bol s
      | _ => false
      end
  | Seq a b => matches a bol s (fun bol' s' => matches b bol' s' k)
  | Alt a b => matches a bol s k || matches b bol s k
  | Opt a => matches a bol s k || k bol s
  | Star a =>
      (fix loop (n : nat) (bol : bool) (s : string) {struct n} : bool :=
         k bol s
         || match n with
            | O => false
            | S n' =>
                matches a bol s
                  (fun bol' s' =>
                     (String.length s' <? String.length s) && loop n' bol' s')
            end) (String.length s) bol s
  | Plus a =>
      matches a bol s
        (fun bol1 s1 =>
           (fix loop (n : nat) (bol : bool) (s : string) {struct n} : bool :=
              k bol s
              || match n with
                 | O => false
                 | S n' =>
                     matches a bol s
                       (fun bol' s' =>
                          (String.length s' <? String.length s) && loop n' bol' s')
                 end) (String.length s1) bol1 s1)
  end.

Fixpoint search_from (r : regex) (bol : bool) (s : string) : bool :=
  matches r bol s (fun _ _ => true)
  || match s with
     | String _ s' => search_from r false s'
     | EmptyString => false
     end.

(** [re.search(pattern, s) is not None], or [None] for a malformed pattern *)
Definition re_search (pattern s : string) : option bool :=
  match compile pattern with
  | Some r => Some (search_from r true s)
  | None => None
  end.

Definition lower_char (c : ascii) : ascii :=
  if (65 <=? code c) && (code c <=? 90) then ascii_of_nat (code c + 32) else c.

(** [s.lower()] *)
Fixpoint lower (s : string) : string :=
  match s with
  | String c r => String (lower_char c) (lower r)
  | EmptyString => EmptyString
  end.

(** Modelled from the spec: the data model of a catalog section (3): a
    resolved record is a container image or a set of boxes by
    architecture. *)
Inductive target : Type :=
| Image (image : string)
| Architectures (boxes : list (string * string)).

Record ResolvedRecord : Type := {
  distribution : string;
  displayName : string;
  resolved : target
}.

Record VersionRule : Type := {
  versionPattern : string;
  record : ResolvedRecord
}.

Record Entry : Type := {
  namePattern : string;
  versionRules : list VersionRule;
  entryDefault : ResolvedRecord
}.

Record ImageCatalog : Type := {
  default : ResolvedRecord;
  entries : list Entry
}.

Fixpoint traverse {A B : Type} (f : A -> option B) (l : list A) : option (list B) :=
  match l with
  | [] => Some []
  | x :: r =>
      match f x, traverse f r with
      | Some y, Some ys => Some (y :: ys)
      | _, _ => None
      end
  end.

Definition string_of_json (v : json) : option string :=
  match v with JStr s => Some s | _ => None end.

Definition field (d : dict) (k : string) : option string :=
  match dict_lookup d k with
  | Some v => string_of_json v
  | None => None
  end.

Definition box_of_json (kv : string * json) : option (string * string) :=
  match string_of_json (snd kv) with
  | Some b => Some (fst kv, b)
  | None => None
  end.

Definition target_of_json (d : dict) : option target :=
  match dict_lookup d "image", dict_lookup d "architectures" with
  | Some (JStr i), _ => Some (Image i)
  | None, Some (JObj a) =>
      match traverse box_of_json a with
      | Some boxes => Some (Architectures boxes)
      | None => None
      end
  | _, _ => None
  end.

(** Modelled from the spec: how a JSON object of a section is read as a
    record of the data model ([name] is the display name). *)
Definition record_of_json (v : json) : option ResolvedRecord :=
  match v with
  | JObj d =>
      match field d "distribution", field d "name", target_of_json d with
      | Some dist, Some name, Some t =>
          Some {| distribution := dist; displayName := name; resolved := t |}
      | _, _, _ => None
      end
  | _ => None
  end.

Definition rule_of_json (v : json) : option VersionRule :=
  match v with
  | JObj d =>
      match field d "version", record_of_json v with
      | Some p, Some r => Some {| versionPattern := p; record := r |}
      | _, _ => None
      end
  | _ => None
  end.

Definition entry_of_json (v : json) : option Entry :=
  match v with
  | JObj d =>
      match field d "name", dict_lookup d "versions", dict_lookup d "default" with
      | Some p, Some (JArr rules), Some dflt =>
          match traverse rule_of_json rules, record_of_json dflt with
          | Some rs, Some r =>
              Some {| namePattern := p; versionRules := rs; entryDefault := r |}
          | _, _ => None
          end
      | _, _, _ => None
      end
  | _ => None
  end.

(** The entries of a section are under [images] (docker_images) or under
    [boxes] (vagrant_boxes, vagrant_boxes_x). *)
Definition catalog_of_json (v : json) : option ImageCatalog :=
  match v with
  | JObj d =>
      let items :=
        match dict_lookup d "images" with
        | Some l => Some l
        | None => dict_lookup d "boxes"
        end in
      match dict_lookup d "default", items with
      | Some dflt, Some (JArr es) =>
          match record_of_json dflt, traverse entry_of_json es with
          | Some r, Some l => Some {| default := r; entries := l |}
          | _, _ => None
          end
      | _, _ => None
      end
  | _ => None
  end.

(** Modelled from the spec: [resolveImageOrBox] (4.2), which is not in
    [parameters.py].  A malformed pattern met during the scan is the
    dataset-integrity error. *)
Inductive resolution : Type :=
| Resolved (r : ResolvedRecord)
| DatasetIntegrityError.

Fixpoint resolve_version (rules : list VersionRule) (dflt : ResolvedRecord)
    (versionRaw : string) : resolution :=
  match rules with
  | [] => Resolved dflt
  | rule :: rest =>
      match re_search (versionPattern rule) versionRaw with
      | None => DatasetIntegrityError
      | Some true => Resolved (record rule)
      | Some false => resolve_version rest dflt versionRaw
      end
  end.

Fixpoint resolve_entry (es : list Entry) (dflt : ResolvedRecord)
    (name versionRaw : string) : resolution :=
  match es with
  | [] => Resolved dflt
  | e :: rest =>
      match re_search (namePattern e) name with
      | None => DatasetIntegrityError
      | Some true => resolve_version (versionRules e) (entryDefault e) versionRaw
      | Some false => resolve_entry rest dflt name versionRaw
      end
  end.

Definition resolveImageOrBox (catalog : ImageCatalog)
    (distributionNameRaw versionRaw : string) : resolution :=
  resolve_entry (entries catalog) (default catalog)
    (lower distributionNameRaw) versionRaw.

(** The section [name] of the bundled parameters, as a catalog. *)
Definition bundled_catalog (name : string) : option ImageCatalog :=
  match json_loads bundled_parameters with
  | Some (JObj d) =>
      match dict_lookup d name with
      | Some v => catalog_of_json v
      | None => None
      end
  | _ => None
  end.

(** ** Specification vocabulary *)

(** The dataset the bundled string decodes to. *)
Definition bundled_dataset : json :=
  Eval vm_compute in
    match json_loads bundled_parameters with
    | Some v => v
    | None => JNull
    end.

(** The address base lines 37-46 settle on, [None] when they settle on the
    bundled parameters without any download. *)
Definition remote_base (env_var : option string) : option string :=
  if is_url env_var then env_var
  else if not_enabled env_var then None
  else Some default_url.

(** The version of a loaded dataset lies in the window. *)
Definition dataset_compatible (v : json) : bool :=
  match v with
  | JObj d =>
      match dict_get d "version" (JStr "1.0") with
      | JStr (String c r) => compatible (LooseVersion (String c r))
      | _ => false
      end
  | _ => false
  end.


(** A download collaborator serving one text, and one that always fails. *)
Definition serving (env_var : option string) (content : option string) : world :=
  {| environ := env_var; version := "1.0.8";
     download_file := fun _ _ => content; remove_raises := false |}.

(** The two catalogs the claims are about, decoded. *)
Definition docker_images_catalog : option ImageCatalog :=
  Eval vm_compute in bundled_catalog "docker_images".

Definition vagrant_boxes_catalog : option ImageCatalog :=
  Eval vm_compute in bundled_catalog "vagrant_boxes".

(** Every record of a catalog: its default, then entry by entry the records
    of the version rules and the default of the entry. *)
Definition catalog_records (c : ImageCatalog) : list ResolvedRecord :=
  default c
  :: flat_map (fun e => (map record (versionRules e) ++ [entryDefault e])%list)
       (entries c).

Definition architectures (r : ResolvedRecord) : list (string * string) :=
  match resolved r with
  | Architectures boxes => boxes
  | Image _ => []
  end.

(** The box of a record for an architecture. *)
Fixpoint box_for (boxes : list (string * string)) (arch : string) : option string :=
  match boxes with
  | [] => None
  | (a, b) :: rest => if String.eqb arch a then Some b else box_for rest arch
  end.

Definition trusty : ResolvedRecord :=
  {| distribution := "ubuntu"; displayName := "Ubuntu 14.04 'Trusty'";
     resolved := Image "ubuntu:14.04" |}.

Definition wily : ResolvedRecord :=
  {| distribution := "ubuntu"; displayName := "Ubuntu 15.10 'Wily'";
     resolved := Image "ubuntu:15.10" |}.

Definition jessie : ResolvedRecord :=
  {| distribution := "debian"; displayName := "Debian 8 'Jessie'";
     resolved := Image "debian:jessie" |}.

Definition centos_7_2 : ResolvedRecord :=
  {| distribution := "centos"; displayName := "CentOS 7.2";
     resolved := Architectures [("x86_64", "bento/centos-7.2")] |}.

(** ** Vocabulary for the exception behaviour *)

(** The document is an object whose [version] (1.0 when there is none) is a
    non-empty string: what lines 70-71 need in order not to raise. *)
Definition well_versioned (doc : json) : bool :=
  match doc with
  | JObj d =>
      match dict_get d "version" (JStr "1.0") with
      | JStr (String _ _) => true
      | _ => false
      end
  | _ => false
  end.

(** The state in which the downloaded text [content] has been decoded to
    [doc] and assigned (line 61). *)
Definition downloaded (st : state) (address content : string) (doc : json)
  : state :=
  {| parameters := doc; cache := Some content; log := log st;
     requests := address :: requests st |}.

(** The comparison of two versions as Python 3 makes it: the first items
    that differ decide, and an integer against a string is a TypeError
    ([None]). *)
Definition cmp_component3 (a b : component) : option comparison :=
  match a, b with
  | CInt x, CInt y => Some (Z.compare x y)
  | CStr x, CStr y => Some (String.compare x y)
  | _, _ => None
  end.

Fixpoint cmp_version3 (a b : list component) : option comparison :=
  match a, b with
  | [], [] => Some Eq
  | [], _ :: _ => Some Lt
  | _ :: _, [] => Some Gt
  | x :: a', y :: b' =>
      match cmp_component3 x y with
      | Some Eq => cmp_version3 a' b'
      | other => other
      end
  end.

(** Line 71 under Python 3: the chained comparison, left to right. *)
Definition compatible3 (ver : list component) : option bool :=
  match cmp_version3 (LooseVersion "1.1") ver with
  | None => None
  | Some Gt => Some false
  | Some _ =>
      match cmp_version3 ver (LooseVersion "1.2") with
      | None => None
      | Some Lt => Some true
      | Some _ => Some false
      end
  end.

(** Every pattern of a catalog is well formed. *)
Definition compiles (pattern : string) : bool :=
  match compile pattern with Some _ => true | None => false end.

Definition patterns_compile (c : ImageCatalog) : bool :=
  forallb (fun e =>
             compiles (namePattern e)
             && forallb (fun r => compiles (versionPattern r)) (versionRules e))
    (entries c).


(** ** The fuel of the decoder *)

Lemma skip_ws_length (s : string) : String.length (skip_ws s) <= String.length s.
Proof.
  induction s as [|c r IH]; cbn [skip_ws]; [lia|].
  destruct (is_ws c); cbn [String.length] in *; lia.
Qed.

Lemma with_char_some (c : ascii) (o : option (string * string)) (x r : string) :
  with_char c o = Some (x, r) -> exists b, o = Some (b, r).
Proof.
  destruct o as [[b r']|]; cbn; [|discriminate].
  intros H. injection H as _ <-. eauto.
Qed.

Lemma with_code_some (n : N) (o : option (string * string)) (x r : string) :
  with_code n o = Some (x, r) -> exists b, o = Some (b, r).
Proof.
  destruct o as [[b r']|]; cbn; [|discriminate].
  intros H. injection H as _ <-. eauto.
Qed.

Ltac shorter IH :=
  match goal with
  | H : with_char _ _ = Some _ |- _ =>
      apply with_char_some in H as [? H]; apply IH in H;
      cbn [String.length] in *; lia
  | H : with_code _ _ = Some _ |- _ =>
      apply with_code_some in H as [? H]; apply IH in H;
      cbn [String.length] in *; lia
  end.

Lemma scanstring_length (n : nat) :
  forall s x r, String.length s <= n -> scanstring s = Some (x, r) -> String.length r < String.length s.
Proof.
  induction n as [|n IH]; intros s x r L H.
  - destruct s; [discriminate H | cbn in L; lia].
  - destruct s as [|c s1]; [discriminate H|]. cbn [scanstring] in H.
    cbn [String.length] in L.
    destruct (Ascii.eqb c dquote).
    { injection H as _ <-. cbn [String.length]. lia. }
    destruct (Ascii.eqb c backslash).
    + destruct s1 as [|e r1]; [discriminate H|].
      destruct (Ascii.eqb e "u").
      * destruct r1 as [|h1 [|h2 [|h3 [|h4 r2]]]]; try discriminate H.
        destruct (hex4 h1 h2 h3 h4) as [uni|]; [|discriminate H].
        cbn [String.length] in L.
        assert (I2 : forall x r, scanstring r2 = Some (x, r) -> String.length r < String.length r2).
        { intros x' r' E. apply (IH r2 x' r'); [lia | exact E]. }
        remember (scanstring r2) as o2 eqn:E2. clear E2.
        destruct r2 as [|b [|u [|l1 [|l2 [|l3 [|l4 r3]]]]]];
          try (shorter I2).
        destruct (is_high_surrogate uni && Ascii.eqb b backslash
                  && Ascii.eqb u "u"); [|shorter I2].
        destruct (hex4 l1 l2 l3 l4) as [uni2|]; [|discriminate H].
        destruct (is_low_surrogate uni2); [|shorter I2].
        assert (I3 : forall x r, scanstring r3 = Some (x, r) -> String.length r < String.length r3).
        { intros x' r' E. apply (IH r3 x' r'); [cbn [String.length] in L; lia | exact E]. }
        shorter I3.
      * destruct (simple_escape e); [|discriminate H].
        assert (I1 : forall x r, scanstring r1 = Some (x, r) -> String.length r < String.length r1).
        { intros x' r' E. apply (IH r1 x' r'); [cbn [String.length] in L; lia | exact E]. }
        shorter I1.
    + destruct (code c <? 32); [discriminate H|].
      assert (I1 : forall x r, scanstring s1 = Some (x, r) -> String.length r < String.length s1).
      { intros x' r' E. apply (IH s1 x' r'); [lia | exact E]. }
      shorter I1.
Qed.

Lemma scanstring_shorter (s x r : string) :
  scanstring s = Some (x, r) -> String.length r < String.length s.
Proof. apply (scanstring_length (String.length s)). lia. Qed.

Lemma startswith_drop (p s : string) :
  startswith s p = true -> String.length (drop (String.length p) s) + String.length p = String.length s.
Proof.
  unfold startswith. revert s.
  induction p as [|a p IH]; intros s H; [cbn; lia|].
  destruct s as [|b s]; cbn in H; [discriminate H|].
  destruct (ascii_dec a b); [|discriminate H].
  cbn [String.length drop]. specialize (IH s H). lia.
Qed.

Lemma take_digits_length (s : string) :
  String.length (snd (take_digits s)) <= String.length s.
Proof.
  induction s as [|c r IH]; cbn [take_digits]; [cbn; lia|].
  destruct (is_digit c); [|cbn; lia].
  destruct (take_digits r) as [ds rest]. cbn [snd String.length] in *. lia.
Qed.

Lemma scan_int_length (s i r : string) :
  scan_int s = Some (i, r) -> String.length r < String.length s.
Proof.
  unfold scan_int. intros H.
  assert (G : forall sign s1, String.length s1 <= String.length s ->
            match s1 with
            | String c r0 =>
                if Ascii.eqb c "0"%char then Some (sign ++ "0", r0)
                else if is_digit c then
                  let (ds, rest) := take_digits r0 in Some (sign ++ String c ds, rest)
                else None
            | EmptyString => None
            end = Some (i, r) -> String.length r < String.length s).
  { intros sign s1 L E. destruct s1 as [|c r0]; [discriminate E|].
    cbn [String.length] in L.
    destruct (Ascii.eqb c "0"%char). { injection E as _ <-. lia. }
    destruct (is_digit c); [|discriminate E].
    pose proof (take_digits_length r0) as T.
    destruct (take_digits r0) as [ds rest]. injection E as _ <-.
    cbn [snd] in T. lia. }
  destruct s as [|c0 r0]; [discriminate H|].
  destruct c0 as [[] [] [] [] [] [] [] []];
    try (apply (G "" _ (le_n _) H));
    apply (G "-" r0); [cbn [String.length]; lia | exact H].
Qed.

Lemma scan_frac_length (s : string) : String.length (snd (scan_frac s)) <= String.length s.
Proof.
  unfold scan_frac. destruct s as [|c r]; [cbn; lia|].
  pose proof (take_digits_length r) as T.
  destruct c as [[] [] [] [] [] [] [] []]; try (cbn [snd]; lia).
  destruct (take_digits r) as [[|a ds] rest]; cbn [snd String.length] in *; lia.
Qed.

Lemma scan_exp_length (s : string) : String.length (snd (scan_exp s)) <= String.length s.
Proof.
  unfold scan_exp. destruct s as [|e r]; [cbn; lia|].
  destruct (Ascii.eqb e "e" || Ascii.eqb e "E"); [|cbn; lia].
  destruct r as [|c0 r0]; [cbn; lia|].
  pose proof (take_digits_length r0) as T0.
  pose proof (take_digits_length (String c0 r0)) as T1.
  destruct c0 as [[] [] [] [] [] [] [] []];
    match goal with
    | |- context [take_digits ?x] =>
        destruct (take_digits x) as [[|a ds] rest]
    end; cbn [snd String.length] in *; lia.
Qed.

Lemma scan_number_length (s lx r : string) :
  scan_number s = Some (lx, r) -> String.length r < String.length s.
Proof.
  unfold scan_number. intros H.
  destruct (scan_int s) as [[i r0]|] eqn:I; [|discriminate H].
  apply scan_int_length in I.
  pose proof (scan_frac_length r0) as F. destruct (scan_frac r0) as [f r1].
  cbv beta iota in H.
  pose proof (scan_exp_length r1) as E. destruct (scan_exp r1) as [e r2].
  cbv beta iota in H. injection H as _ <-. cbn [snd] in *. lia.
Qed.

Lemma scan_constant_length (s : string) (v : json) (r : string) :
  scan_constant s = Some (v, r) -> String.length r < String.length s.
Proof.
  unfold scan_constant. intros H.
  repeat match type of H with
  | (if startswith s ?p then _ else _) = _ =>
      let E := fresh "E" in
      destruct (startswith s p) eqn:E;
      [ apply startswith_drop in E; cbn [String.length] in E;
        match type of H with
        | Some (_, ?d) = Some (_, _) =>
            assert (R : d = r) by congruence; rewrite <- R; lia
        end | ]
  end.
  destruct (scan_number s) as [[lx r0]|] eqn:N.
  - apply scan_number_length in N. injection H as _ <-. exact N.
  - repeat match type of H with
    | (if startswith s ?p then _ else _) = _ =>
        let E := fresh "E" in
        destruct (startswith s p) eqn:E;
        [ apply startswith_drop in E; cbn [String.length] in E;
          match type of H with
          | Some (_, ?d) = Some (_, _) =>
              assert (R : d = r) by congruence; rewrite <- R; lia
          end | ]
    end.
    discriminate H.
Qed.

(** Whatever the decoder reads, it consumes. *)
Lemma scan_consumes (n : nat) :
  (forall s v r, scan_once n s = Some (v, r) -> String.length r < String.length s)
  /\ (forall pairs s v r, JSONObject n pairs s = Some (v, r) -> String.length r < String.length s)
  /\ (forall values s v r, JSONArray n values s = Some (v, r) -> String.length r < String.length s).
Proof.
  induction n as [|n [IHs [IHo IHa]]];
    [repeat split; intros; discriminate|].
  split; [|split].
  - intros s v r H. cbn [scan_once] in H.
    destruct s as [|c s1]; [discriminate H|]. cbn [String.length].
    destruct (Ascii.eqb c dquote).
    { destruct (scanstring s1) as [[str rest]|] eqn:E; [|discriminate H].
      apply scanstring_shorter in E. injection H as _ <-. lia. }
    destruct (Ascii.eqb c "{").
    { pose proof (skip_ws_length s1) as W.
      destruct (skip_ws s1) as [|c1 r1]; [discriminate H|].
      cbn [String.length] in W.
      destruct (Ascii.eqb c1 "}"). { injection H as _ <-. lia. }
      destruct (Ascii.eqb c1 dquote); [|discriminate H].
      apply IHo in H. lia. }
    destruct (Ascii.eqb c "[").
    { pose proof (skip_ws_length s1) as W.
      destruct (skip_ws s1) as [|c1 r1]; [discriminate H|].
      destruct (Ascii.eqb c1 "]").
      { injection H as _ <-. cbn [String.length] in W. lia. }
      apply IHa in H. lia. }
    apply scan_constant_length in H. exact H.
  - intros pairs s v r H. cbn [JSONObject] in H.
    destruct (scanstring s) as [[key r0]|] eqn:K; [|discriminate H].
    apply scanstring_shorter in K.
    pose proof (skip_ws_length r0) as W0.
    destruct (skip_ws r0) as [|c0 r1]; [discriminate H|].
    cbn [String.length] in W0.
    destruct (Ascii.eqb c0 ":") eqn:C0;
      [apply Ascii.eqb_eq in C0; subst c0
      | destruct c0 as [[] [] [] [] [] [] [] []]; try discriminate H;
        discriminate C0].
    pose proof (skip_ws_length r1) as W1.
    destruct (scan_once n (skip_ws r1)) as [[value r2]|] eqn:V; [|discriminate H].
    apply IHs in V.
    pose proof (skip_ws_length r2) as W2.
    destruct (skip_ws r2) as [|c r3]; [discriminate H|].
    cbn [String.length] in W2.
    destruct (Ascii.eqb c "}"). { injection H as _ <-. lia. }
    destruct (Ascii.eqb c ","); [|discriminate H].
    pose proof (skip_ws_length r3) as W3.
    destruct (skip_ws r3) as [|q0 r4]; [discriminate H|].
    cbn [String.length] in W3.
    destruct (Ascii.eqb q0 dquote); [|discriminate H].
    apply IHo in H. lia.
  - intros values s v r H. cbn [JSONArray] in H.
    destruct (scan_once n s) as [[value r0]|] eqn:V; [|discriminate H].
    apply IHs in V.
    pose proof (skip_ws_length r0) as W0.
    destruct (skip_ws r0) as [|c r1]; [discriminate H|].
    cbn [String.length] in W0.
    destruct (Ascii.eqb c "]"). { injection H as _ <-. lia. }
    destruct (Ascii.eqb c ","); [|discriminate H].
    pose proof (skip_ws_length r1) as W1.
    apply IHa in H. lia.
Qed.

(** With fuel above twice the length of the text, the answer of the decoder
    does not depend on the fuel. *)
Lemma scan_fuel (n : nat) :
  (forall s m, 2 * String.length s < n -> 2 * String.length s < m -> scan_once n s = scan_once m s)
  /\ (forall pairs s m, 2 * String.length s + 2 <= n -> 2 * String.length s + 2 <= m ->
        JSONObject n pairs s = JSONObject m pairs s)
  /\ (forall values s m, 2 * String.length s + 2 <= n -> 2 * String.length s + 2 <= m ->
        JSONArray n values s = JSONArray m values s).
Proof.
  induction n as [|n [IHs [IHo IHa]]]; [repeat split; intros; lia|].
  split; [|split].
  - intros s [|m] N M; [lia|]. cbn [scan_once].
    destruct s as [|c s1]; [reflexivity|]. cbn [String.length] in N, M.
    destruct (Ascii.eqb c dquote); [reflexivity|].
    pose proof (skip_ws_length s1) as W.
    destruct (Ascii.eqb c "{").
    { destruct (skip_ws s1) as [|c1 r1]; [reflexivity|].
      cbn [String.length] in W.
      destruct (Ascii.eqb c1 "}"); [reflexivity|].
      destruct (Ascii.eqb c1 dquote); [|reflexivity].
      apply IHo; lia. }
    destruct (Ascii.eqb c "["); [|reflexivity].
    destruct (skip_ws s1) as [|c1 r1]; [reflexivity|].
    destruct (Ascii.eqb c1 "]"); [reflexivity|].
    apply IHa; lia.
  - intros pairs s [|m] N M; [lia|]. cbn [JSONObject].
    destruct (scanstring s) as [[key r0]|] eqn:K; [|reflexivity].
    apply scanstring_shorter in K.
    pose proof (skip_ws_length r0) as W0.
    destruct (skip_ws r0) as [|c0 r1]; [reflexivity|].
    cbn [String.length] in W0.
    destruct (Ascii.eqb c0 ":") eqn:C0;
      [apply Ascii.eqb_eq in C0; subst c0
      | destruct c0 as [[] [] [] [] [] [] [] []]; try reflexivity;
        discriminate C0].
    pose proof (skip_ws_length r1) as W1.
    rewrite (IHs (skip_ws r1) m) by lia.
    destruct (scan_once m (skip_ws r1)) as [[value r2]|] eqn:V; [|reflexivity].
    apply (proj1 (scan_consumes m)) in V.
    pose proof (skip_ws_length r2) as W2.
    destruct (skip_ws r2) as [|c r3]; [reflexivity|].
    cbn [String.length] in W2.
    destruct (Ascii.eqb c "}"); [reflexivity|].
    destruct (Ascii.eqb c ","); [|reflexivity].
    pose proof (skip_ws_length r3) as W3.
    destruct (skip_ws r3) as [|q0 r4]; [reflexivity|].
    cbn [String.length] in W3.
    destruct (Ascii.eqb q0 dquote); [|reflexivity].
    apply IHo; lia.
  - intros values s [|m] N M; [lia|]. cbn [JSONArray].
    rewrite (IHs s m) by lia.
    destruct (scan_once m s) as [[value r0]|] eqn:V; [|reflexivity].
    apply (proj1 (scan_consumes m)) in V.
    pose proof (skip_ws_length r0) as W0.
    destruct (skip_ws r0) as [|c r1]; [reflexivity|].
    cbn [String.length] in W0.
    destruct (Ascii.eqb c "]"); [reflexivity|].
    destruct (Ascii.eqb c ","); [|reflexivity].
    pose proof (skip_ws_length r1) as W1.
    apply IHa; lia.
Qed.

(** More fuel than [json_loads] gives never changes what is decoded: a
    [None] of [json_loads] is a text that is not JSON. *)
Lemma scan_once_fuel (s : string) (n : nat) :
  2 * String.length s < n ->
  scan_once n (skip_ws s) = scan_once (2 * String.length s + 1) (skip_ws s).
Proof.
  intros N. pose proof (skip_ws_length s) as W.
  apply (proj1 (scan_fuel n)); lia.
Qed.

(** ** The fuel of [compile] *)

Lemma quantified_length (a : regex) (s : string) :
  String.length (snd (quantified a s)) <= String.length s.
Proof.
  unfold quantified. destruct s as [|c r]; [cbn; lia|].
  destruct c as [[] [] [] [] [] [] [] []]; cbn [snd String.length]; lia.
Qed.

Lemma parse_consumes (n : nat) :
  (forall s a r, parse_alt n s = Some (a, r) -> String.length r <= String.length s)
  /\ (forall s a r, parse_seq n s = Some (a, r) -> String.length r <= String.length s)
  /\ (forall s a r, parse_atom n s = Some (a, r) -> String.length r < String.length s).
Proof.
  induction n as [|n [IHalt [IHseq IHatom]]];
    [repeat split; intros; discriminate|].
  split; [|split].
  - intros s a r H. cbn [parse_alt] in H.
    destruct (parse_seq n s) as [[a0 r0]|] eqn:E; [|discriminate H].
    apply IHseq in E.
    destruct r0 as [|c r1]; [injection H as _ <-; exact E|].
    cbn [String.length] in E.
    destruct (Ascii.eqb c "|") eqn:C;
      [apply Ascii.eqb_eq in C; subst c
      | destruct c as [[] [] [] [] [] [] [] []];
        try (injection H as _ <-; cbn [String.length]; lia);
        discriminate C].
    destruct (parse_alt n r1) as [[b rest]|] eqn:A; [|discriminate H].
    apply IHalt in A. injection H as _ <-. lia.
  - intros s a r H. cbn [parse_seq] in H.
    destruct s as [|c s1]; [injection H as _ <-; lia|].
    destruct (Ascii.eqb c "|" || Ascii.eqb c ")"); [injection H as _ <-; lia|].
    destruct (parse_atom n (String c s1)) as [[a0 r1]|] eqn:E; [|discriminate H].
    apply IHatom in E.
    pose proof (quantified_length a0 r1) as Q.
    destruct (quantified a0 r1) as [a' r2]. cbn [snd] in Q.
    destruct (parse_seq n r2) as [[b rest]|] eqn:S; [|discriminate H].
    apply IHseq in S. injection H as _ <-. lia.
  - intros s a r H. cbn [parse_atom] in H.
    destruct s as [|c s1]; [discriminate H|]. cbn [String.length].
    destruct (Ascii.eqb c "(").
    { destruct (parse_alt n s1) as [[a0 r0]|] eqn:E; [|discriminate H].
      apply IHalt in E. destruct r0 as [|c0 rest]; [discriminate H|].
      cbn [String.length] in E.
      destruct c0 as [[] [] [] [] [] [] [] []]; try discriminate H.
      injection H as _ <-. lia. }
    destruct (Ascii.eqb c backslash).
    { destruct s1 as [|e rest]; [discriminate H|].
      destruct (is_alnum e); [discriminate H|].
      injection H as _ <-. cbn [String.length]. lia. }
    repeat match type of H with
           | (if ?b then _ else _) = _ =>
               destruct b; [try discriminate H; injection H as _ <-; lia|]
           end.
    injection H as _ <-. lia.
Qed.

(** With fuel above three times the length of the pattern, the answer of
    the parser does not depend on the fuel. *)
Lemma parse_fuel (n : nat) :
  (forall s m, 3 * String.length s + 3 <= n -> 3 * String.length s + 3 <= m ->
     parse_alt n s = parse_alt m s)
  /\ (forall s m, 3 * String.length s + 2 <= n -> 3 * String.length s + 2 <= m ->
        parse_seq n s = parse_seq m s)
  /\ (forall s m, 3 * String.length s + 1 <= n -> 3 * String.length s + 1 <= m ->
        parse_atom n s = parse_atom m s).
Proof.
  induction n as [|n [IHalt [IHseq IHatom]]]; [repeat split; intros; lia|].
  split; [|split].
  - intros s [|m] N M; [lia|]. cbn [parse_alt].
    rewrite (IHseq s m) by lia.
    destruct (parse_seq m s) as [[a0 r0]|] eqn:E; [|reflexivity].
    apply (proj1 (proj2 (parse_consumes m))) in E.
    destruct r0 as [|c r1]; [reflexivity|]. cbn [String.length] in E.
    destruct (Ascii.eqb c "|") eqn:C;
      [apply Ascii.eqb_eq in C; subst c
      | destruct c as [[] [] [] [] [] [] [] []]; try reflexivity;
        discriminate C].
    rewrite (IHalt r1 m) by lia. reflexivity.
  - intros s [|m] N M; [lia|]. cbn [parse_seq].
    destruct s as [|c s1]; [reflexivity|].
    destruct (Ascii.eqb c "|" || Ascii.eqb c ")"); [reflexivity|].
    rewrite (IHatom (String c s1) m) by lia.
    destruct (parse_atom m (String c s1)) as [[a0 r1]|] eqn:E; [|reflexivity].
    apply (proj2 (proj2 (parse_consumes m))) in E.
    pose proof (quantified_length a0 r1) as Q.
    destruct (quantified a0 r1) as [a' r2]. cbn [snd] in Q.
    rewrite (IHseq r2 m) by lia. reflexivity.
  - intros s [|m] N M; [lia|]. cbn [parse_atom].
    destruct s as [|c s1]; [reflexivity|]. cbn [String.length] in N, M.
    destruct (Ascii.eqb c "("); [|reflexivity].
    rewrite (IHalt s1 m) by lia. reflexivity.
Qed.

(** More fuel than [compile] gives never changes what is parsed: a [None] of
    [compile] is a malformed pattern. *)
Lemma compile_fuel (pattern : string) (n : nat) :
  3 * String.length pattern + 3 <= n ->
  parse_alt n pattern = parse_alt (3 * String.length pattern + 3) pattern.
Proof.
  intros N. apply (proj1 (parse_fuel n)); lia.
Qed.

(** ** Basic facts *)

Arguments dataset_compatible : simpl never.

Lemma bundled_loads : json_loads bundled_parameters = Some bundled_dataset.
Proof. vm_compute. reflexivity. Qed.

Lemma use_bundled_returns (st : state) :
  use_bundled st = Returned tt (set_parameters st bundled_dataset).
Proof. unfold use_bundled. rewrite bundled_loads. reflexivity. Qed.

Lemma bundled_dataset_compatible : dataset_compatible bundled_dataset = true.
Proof. vm_compute. reflexivity. Qed.

Lemma bundled_dataset_dict :
  exists d, bundled_dataset = JObj d
            /\ dict_lookup d "version" = Some (JStr "1.1.0")
            /\ dict_lookup d "docker_images" <> None.
Proof.
  assert (V : match bundled_dataset with
              | JObj d =>
                  dict_lookup d "version" = Some (JStr "1.1.0")
                  /\ dict_lookup d "docker_images" <> None
              | _ => False
              end) by (vm_compute; split; [reflexivity | discriminate]).
  destruct bundled_dataset as [| | | | |d]; try contradiction.
  exists d. split; [reflexivity | exact V].
Qed.

Lemma is_None_true (v : json) : is_None v = true <-> v = JNull.
Proof. destruct v; simpl; split; congruence. Qed.

Lemma dataset_compatible_dict (v : json) :
  dataset_compatible v = true -> exists d, v = JObj d.
Proof. destruct v; simpl; try discriminate. eauto. Qed.

Lemma update_parameters_loaded (w : world) (st : state) :
  parameters st <> JNull -> update_parameters w st = Returned tt st.
Proof.
  intros H. unfold update_parameters.
  destruct (is_None (parameters st)) eqn:E; [|reflexivity].
  apply is_None_true in E. contradiction.
Qed.

Lemma update_parameters_first (w : world) (st : state) :
  parameters st = JNull ->
  update_parameters w st =
    match remote_base (environ w) with
    | Some url => download_parameters w st url
    | None => use_bundled st
    end.
Proof.
  intros H. unfold update_parameters, remote_base. rewrite H. cbn [is_None negb].
  destruct (is_url (environ w)) eqn:U.
  - destruct (environ w); [reflexivity | discriminate].
  - destruct (not_enabled (environ w)); reflexivity.
Qed.

Lemma check_version_cases (st : state) :
  (check_version st = Returned tt st /\ dataset_compatible (parameters st) = true)
  \/ (exists msg, check_version st
        = Returned tt (set_parameters (logging_info st msg) bundled_dataset)
      /\ dataset_compatible (parameters st) = false)
  \/ (check_version st = Raised st).
Proof.
  unfold check_version, dataset_compatible.
  destruct (parameters st) as [| | | | |d]; auto.
  destruct (dict_get d "version" (JStr "1.0")) as [| | |s| |]; auto.
  destruct s as [|c r]; auto.
  destruct (compatible (LooseVersion (String c r))); auto.
  right; left. eexists. rewrite use_bundled_returns. split; reflexivity.
Qed.

(** Every way through the download either returns with a compatible dataset
    in place and exactly one more request, or raises. *)
Lemma download_parameters_cases (w : world) (st : state) (url : string) :
  let o := download_parameters w st url in
  requests (final o) = (url ++ version w) :: requests st
  /\ (returned o = true -> dataset_compatible (parameters (final o)) = true).
Proof.
  unfold download_parameters.
  destruct (download_file w (url ++ version w) (cache (request st (url ++ version w))))
    as [content|].
  - destruct (json_loads content) as [doc|].
    + match goal with |- context [check_version ?s] =>
        destruct (check_version_cases s) as [[E C]|[[msg [E C]]|E]]; rewrite E
      end; cbn [final returned requests set_parameters logging_info parameters
                  set_cache request]; (split; [reflexivity|]); intros R.
      * exact C.
      * exact bundled_dataset_compatible.
      * discriminate R.
    + rewrite use_bundled_returns. destruct (remove_raises w);
        (split; [reflexivity|]); intros _; exact bundled_dataset_compatible.
  - rewrite use_bundled_returns. cbn [final returned]. split; [reflexivity|].
    intros _. exact bundled_dataset_compatible.
Qed.


Lemma update_parameters_compatible (w : world) (st st' : state) :
  parameters st = JNull \/ dataset_compatible (parameters st) = true ->
  update_parameters w st = Returned tt st' ->
  dataset_compatible (parameters st') = true.
Proof.
  intros H R.
  destruct (is_None (parameters st)) eqn:E.
  - apply is_None_true in E. rewrite (update_parameters_first w st E) in R.
    destruct (remote_base (environ w)) as [url|].
    + pose proof (download_parameters_cases w st url) as [_ C].
      rewrite R in C. apply C. reflexivity.
    + rewrite use_bundled_returns in R. injection R as <-.
      exact bundled_dataset_compatible.
  - assert (N : parameters st <> JNull).
    { intros X. rewrite X in E. discriminate. }
    rewrite (update_parameters_loaded w st N) in R. injection R as <-.
    destruct H as [H|H]; [contradiction | exact H].
Qed.

Lemma download_parameters_decoded (w : world) (st : state)
    (url content : string) (doc : json) :
  download_file w (url ++ version w) (cache st) = Some content ->
  json_loads content = Some doc ->
  download_parameters w st url
  = check_version (downloaded st (url ++ version w) content doc).
Proof.
  intros D L. unfold download_parameters. cbn [request cache].
  rewrite D, L. reflexivity.
Qed.

Lemma check_version_ill (st : state) :
  well_versioned (parameters st) = false -> check_version st = Raised st.
Proof.
  unfold well_versioned, check_version.
  destruct (parameters st) as [| | | | |d]; try reflexivity.
  destruct (dict_get d "version" (JStr "1.0")) as [| | |s| |]; try reflexivity.
  destruct s; [reflexivity | discriminate].
Qed.

Lemma check_version_well (st : state) :
  well_versioned (parameters st) = true -> returned (check_version st) = true.
Proof.
  unfold well_versioned, check_version.
  destruct (parameters st) as [| | | | |d]; try discriminate.
  destruct (dict_get d "version" (JStr "1.0")) as [| | |s| |]; try discriminate.
  destruct s as [|c r]; [discriminate|]. intros _.
  destruct (compatible (LooseVersion (String c r))); [reflexivity|].
  rewrite use_bundled_returns. reflexivity.
Qed.

Lemma get_parameter_final (w : world) (st : state) (s : string) :
  parameters st = JNull ->
  final (get_parameter w st s) = final (update_parameters w st).
Proof.
  intros H. unfold get_parameter. rewrite H. cbn [is_None].
  destruct (update_parameters w st) as [[] st'|st']; [|reflexivity].
  unfold lookup_section. destruct (parameters st'); reflexivity.
Qed.

Lemma update_parameters_ill (w : world) (st : state) (url content : string)
    (doc : json) :
  parameters st = JNull ->
  remote_base (environ w) = Some url ->
  download_file w (url ++ version w) (cache st) = Some content ->
  json_loads content = Some doc ->
  well_versioned doc = false ->
  update_parameters w st = Raised (downloaded st (url ++ version w) content doc).
Proof.
  intros H B D L V. rewrite (update_parameters_first w st H), B.
  rewrite (download_parameters_decoded w st url content doc D L).
  apply check_version_ill. exact V.
Qed.

(** ** Facts about the resolution *)

Lemma docker_images_decoded :
  bundled_catalog "docker_images" = docker_images_catalog.
Proof. vm_compute. reflexivity. Qed.

Lemma vagrant_boxes_decoded :
  bundled_catalog "vagrant_boxes" = vagrant_boxes_catalog.
Proof. vm_compute. reflexivity. Qed.

Lemma resolve_entry_no_match (es : list Entry) (dflt : ResolvedRecord)
    (name versionRaw : string) :
  Forall (fun e => re_search (namePattern e) name = Some false) es ->
  resolve_entry es dflt name versionRaw = Resolved dflt.
Proof.
  induction 1 as [|e rest E _ IH]; [reflexivity|].
  cbn [resolve_entry]. rewrite E. exact IH.
Qed.

Lemma resolve_entry_first_match (before after : list Entry) (e : Entry)
    (dflt : ResolvedRecord) (name versionRaw : string) :
  Forall (fun e' => re_search (namePattern e') name = Some false) before ->
  re_search (namePattern e) name = Some true ->
  resolve_entry (before ++ e :: after)%list dflt name versionRaw
  = resolve_version (versionRules e) (entryDefault e) versionRaw.
Proof.
  intros F M. induction F as [|e' rest E _ IH].
  - cbn [app resolve_entry]. rewrite M. reflexivity.
  - cbn [app resolve_entry]. rewrite E. exact IH.
Qed.

Lemma resolve_version_no_match (rules : list VersionRule)
    (dflt : ResolvedRecord) (versionRaw : string) :
  Forall (fun r => re_search (versionPattern r) versionRaw = Some false) rules ->
  resolve_version rules dflt versionRaw = Resolved dflt.
Proof.
  induction 1 as [|r rest E _ IH]; [reflexivity|].
  cbn [resolve_version]. rewrite E. exact IH.
Qed.

Lemma resolve_version_first_match (before after : list VersionRule)
    (rule : VersionRule) (dflt : ResolvedRecord) (versionRaw : string) :
  Forall (fun r => re_search (versionPattern r) versionRaw = Some false) before ->
  re_search (versionPattern rule) versionRaw = Some true ->
  resolve_version (before ++ rule :: after)%list dflt versionRaw
  = Resolved (record rule).
Proof.
  intros F M. induction F as [|r rest E _ IH].
  - cbn [app resolve_version]. rewrite M. reflexivity.
  - cbn [app resolve_version]. rewrite E. exact IH.
Qed.

(** A pattern that starts with [^] is not found past the start. *)
Lemma search_from_anchored (r : regex) (s : string) :
  search_from (Seq Bol r) false s = false.
Proof.
  induction s as [|c s IH]; cbn [search_from matches andb orb]; [reflexivity|].
  exact IH.
Qed.

(** ** The claims *)

(** C7.  The bundled string decodes as JSON, to an object whose [version] is
    the string 1.1.0, and that version passes the test of line 71: it is at
    least 1.1 and below 1.2. *)
Theorem bundled_parameters_valid :
  exists d : dict,
    json_loads bundled_parameters = Some (JObj d)
    /\ dict_lookup d "version" = Some (JStr "1.1.0")
    /\ LooseVersion "1.1.0" = [CInt 1; CInt 1; CInt 0]
    /\ version_le (LooseVersion "1.1") (LooseVersion "1.1.0") = true
    /\ version_lt (LooseVersion "1.1.0") (LooseVersion "1.2") = true
    /\ dataset_compatible (JObj d) = true.
Proof.
  destruct bundled_dataset_dict as [d [B [V _]]]. exists d.
  pose proof bundled_loads as L. pose proof bundled_dataset_compatible as C.
  rewrite B in L, C.
  repeat split; try assumption; vm_compute; reflexivity.
Qed.



(** C5.  The variable REPROZIP_PARAMETERS decides in three ways: unset or one
    of the six enabling values, the download is asked for the default address
    followed by the version; a value that starts with http:// or https://,
    the download is asked for that value followed by the version; any other
    value, nothing is asked of the download collaborator, nothing is logged
    and [parameters] is the decoded bundled string. *)
Theorem environment_dispatch (w : world) (st : state) :
  parameters st = JNull ->
  (environ w = None
   \/ (exists v, environ w = Some v
                 /\ In v [""; "1"; "on"; "enabled"; "yes"; "true"]) ->
   requests (final (update_parameters w st))
   = (default_url ++ version w) :: requests st)
  /\ (forall v, environ w = Some v ->
        startswith v "http://" = true \/ startswith v "https://" = true ->
        requests (final (update_parameters w st)) = (v ++ version w) :: requests st)
  /\ (forall v, environ w = Some v ->
        ~ In v [""; "1"; "on"; "enabled"; "yes"; "true"] ->
        startswith v "http://" = false ->
        startswith v "https://" = false ->
        exists d, json_loads bundled_parameters = Some d
                  /\ update_parameters w st = Returned tt (set_parameters st d))
  /\ remote_base (Some "disabled") = None.
Proof.
  intros H. rewrite (update_parameters_first w st H).
  split; [|split; [|split]].
  - intros E.
    assert (B : remote_base (environ w) = Some default_url).
    { destruct E as [E|[v [E I]]]; rewrite E; [reflexivity|].
      cbn [In] in I.
      repeat (destruct I as [<-|I]; [reflexivity|]). contradiction. }
    rewrite B. apply download_parameters_cases.
  - intros v E P.
    assert (B : remote_base (environ w) = Some v).
    { rewrite E. unfold remote_base, is_url.
      destruct v as [|c r].
      - destruct P as [P|P]; discriminate P.
      - destruct P as [P|P]; rewrite P; cbn [orb]; try reflexivity.
        rewrite orb_true_r. reflexivity. }
    rewrite B. apply download_parameters_cases.
  - intros v E N P1 P2.
    assert (B : remote_base (environ w) = None).
    { rewrite E. unfold remote_base, is_url.
      assert (U : match v with
                  | String c r =>
                      startswith (String c r) "http://"
                      || startswith (String c r) "https://"
                  | _ => false
                  end = false).
      { destruct v; [reflexivity|]. rewrite P1, P2. reflexivity. }
      rewrite U. unfold not_enabled.
      destruct (existsb (String.eqb v) [""; "1"; "on"; "enabled"; "yes"; "true"]) eqn:X;
        [|reflexivity].
      apply existsb_exists in X as [x [I X]]. apply String.eqb_eq in X. subst x.
      contradiction. }
    rewrite B. exists bundled_dataset. split; [exact bundled_loads|].
    apply use_bundled_returns.
  - reflexivity.
Qed.

Lemma environment_dispatch_witness :
  parameters (initial None) = JNull
  /\ exists d, json_loads bundled_parameters = Some d
       /\ update_parameters (serving (Some "disabled") (Some "{}")) (initial None)
          = Returned tt (set_parameters (initial None) d).
Proof.
  split; [reflexivity|].
  refine (proj1 (proj2 (proj2 (environment_dispatch
            (serving (Some "disabled") (Some "{}")) (initial None) eq_refl)))
          "disabled" eq_refl _ eq_refl eq_refl).
  cbn [In]. intros I.
  repeat (destruct I as [I|I]; [discriminate I|]). exact I.
Defined.

(** C6.  When the downloaded text is not JSON, the call logs the message of
    line 63 (logging.info), removes the cached file unless the removal
    raises, in which case the file stays and the call goes on all the same,
    and returns with the decoded bundled string in [parameters].  The text
    [{not json] is such a text. *)
Theorem malformed_document (w : world) (st : state) (url content : string) :
  parameters st = JNull ->
  remote_base (environ w) = Some url ->
  download_file w (url ++ version w) (cache st) = Some content ->
  json_loads content = None ->
  exists st',
    update_parameters w st = Returned tt st'
    /\ json_loads bundled_parameters = Some (parameters st')
    /\ log st' = msg_load :: log st
    /\ cache st' = (if remove_raises w then Some content else None)
    /\ json_loads (q "{not json") = None.
Proof.
  intros H B D L. rewrite (update_parameters_first w st H), B.
  unfold download_parameters. cbn [request cache]. rewrite D, L.
  rewrite use_bundled_returns. eexists. split; [reflexivity|].
  cbn [set_parameters parameters log cache].
  split; [exact bundled_loads|].
  destruct (remove_raises w); repeat split; reflexivity.
Qed.

Lemma malformed_document_witness :
  exists st',
    update_parameters (serving None (Some (q "{not json"))) (initial None)
    = Returned tt st'
    /\ json_loads bundled_parameters = Some (parameters st')
    /\ log st' = msg_load :: nil
    /\ cache st' = None
    /\ json_loads (q "{not json") = None.
Proof.
  apply (malformed_document (serving None (Some (q "{not json"))) (initial None)
           default_url (q "{not json")); reflexivity.
Defined.

(** C2.  A downloaded text that decodes to an object whose [version] (1.0
    when there is none) is a non-empty string is kept as [parameters] when
    that version is at least 1.1 and below 1.2, and replaced by the decoded
    bundled string otherwise.  Documents of version 1.0, 1.2 and 2.0, and a
    document without version, are replaced; documents of version 1.1 and
    1.1.9 are kept. *)
Theorem version_gate (w : world) (st : state) (url content : string)
    (d : dict) (c : ascii) (r : string) :
  parameters st = JNull ->
  remote_base (environ w) = Some url ->
  download_file w (url ++ version w) (cache st) = Some content ->
  json_loads content = Some (JObj d) ->
  dict_get d "version" (JStr "1.0") = JStr (String c r) ->
  (exists st',
     update_parameters w st = Returned tt st'
     /\ (compatible (LooseVersion (String c r)) = true -> parameters st' = JObj d)
     /\ (compatible (LooseVersion (String c r)) = false ->
         json_loads bundled_parameters = Some (parameters st')))
  /\ (forall ver,
        compatible ver = true
        <-> cmp_version [CInt 1; CInt 1] ver <> Gt
            /\ cmp_version ver [CInt 1; CInt 2] = Lt)
  /\ map (fun v => compatible (LooseVersion v)) ["1.0"; "1.2"; "2.0"; "1.1"; "1.1.9"]
     = [false; false; false; true; true]
  /\ map (fun v => parameters (final (update_parameters
                     (serving None (Some (q ("{`version`: `" ++ v ++ "`}"))))
                     (initial None))))
       ["1.0"; "1.2"; "2.0"; "1.1"; "1.1.9"]
     = [bundled_dataset; bundled_dataset; bundled_dataset;
        JObj [("version", JStr "1.1")]; JObj [("version", JStr "1.1.9")]]
  /\ parameters (final (update_parameters (serving None (Some "{}")) (initial None)))
     = bundled_dataset.
Proof.
  intros H B D L V. split; [|split; [|split; [|split]]].
  - rewrite (update_parameters_first w st H), B.
    unfold download_parameters. cbn [request cache]. rewrite D, L.
    unfold check_version. cbn [set_parameters parameters]. rewrite V.
    destruct (compatible (LooseVersion (String c r))).
    + eexists. split; [reflexivity|]. split; [reflexivity | discriminate].
    + rewrite use_bundled_returns. eexists. split; [reflexivity|].
      split; [discriminate|]. intros _. exact bundled_loads.
  - intros ver. unfold compatible, version_le, version_lt.
    change (LooseVersion "1.1") with [CInt 1; CInt 1].
    change (LooseVersion "1.2") with [CInt 1; CInt 2].
    destruct (cmp_version [CInt 1; CInt 1] ver);
      destruct (cmp_version ver [CInt 1; CInt 2]); cbn;
      split; try discriminate; try (intros [X Y]; congruence);
      intros _; split; congruence.
  - vm_compute. reflexivity.
  - vm_compute. reflexivity.
  - vm_compute. reflexivity.
Qed.

Lemma version_gate_witness :
  exists st',
    update_parameters (serving None (Some (q "{`version`: `1.1.9`}"))) (initial None)
    = Returned tt st'
    /\ (compatible (LooseVersion "1.1.9") = true ->
        parameters st' = JObj [("version", JStr "1.1.9")])
    /\ (compatible (LooseVersion "1.1.9") = false ->
        json_loads bundled_parameters = Some (parameters st')).
Proof.
  apply (version_gate (serving None (Some (q "{`version`: `1.1.9`}"))) (initial None)
           default_url (q "{`version`: `1.1.9`}")
           [("version", JStr "1.1.9")] "1"%char ".1.9");
    reflexivity.
Defined.

Lemma get_parameter_loaded (w : world) (st : state) (d : dict) (s : string) :
  parameters st = JObj d ->
  get_parameter w st s = Returned (dict_get d s JNull) st.
Proof.
  intros H. unfold get_parameter, lookup_section. rewrite H. reflexivity.
Qed.

Lemma get_parameter_first (w : world) (st : state) (s : string) :
  parameters st = JNull ->
  (forall st', update_parameters w st = Raised st' ->
     get_parameter w st s = Raised st')
  /\ (forall st', update_parameters w st = Returned tt st' ->
        exists d, parameters st' = JObj d
                  /\ get_parameter w st s = Returned (dict_get d s JNull) st').
Proof.
  intros H. unfold get_parameter. rewrite H. cbn [is_None]. split.
  - intros st' R. rewrite R. reflexivity.
  - intros st' R. rewrite R.
    pose proof (update_parameters_compatible w st st' (or_introl H) R) as C.
    apply dataset_compatible_dict in C as [d C]. exists d.
    split; [exact C|]. unfold lookup_section. rewrite C. reflexivity.
Qed.


Lemma run_loaded (calls : list (world * string)) (st : state) (d : dict) :
  parameters st = JObj d -> run calls st = st.
Proof.
  intros H. induction calls as [|[w s] rest IH]; [reflexivity|].
  cbn [run]. rewrite (get_parameter_loaded w st d s H). exact IH.
Qed.
















(** C4.  In the [docker_images] catalog of the bundled parameters the first
    entry whose name pattern is found in the lower-cased name decides, and
    within it the first version rule whose pattern is found in the version;
    Ubuntu 14.04 resolves to the Trusty image, ubuntu 99.99 to the default
    of the Ubuntu entry (Wily), which is not the default of the catalog, and
    gentoo 1.0 to the default of the catalog (Jessie). *)
Theorem docker_images_resolution :
  exists c ubuntu others,
    bundled_catalog "docker_images" = Some c
    /\ entries c = ubuntu :: others
    /\ namePattern ubuntu = "^ubuntu$"
    /\ resolveImageOrBox c "Ubuntu" "14.04" = Resolved trusty
    /\ resolveImageOrBox c "ubuntu" "99.99" = Resolved wily
    /\ entryDefault ubuntu = wily
    /\ wily <> default c
    /\ resolveImageOrBox c "gentoo" "1.0" = Resolved (default c)
    /\ default c = jessie
    /\ (forall before e after name v,
          entries c = (before ++ e :: after)%list ->
          Forall (fun e' => re_search (namePattern e') (lower name) = Some false)
            before ->
          re_search (namePattern e) (lower name) = Some true ->
          resolveImageOrBox c name v
          = resolve_version (versionRules e) (entryDefault e) v)
    /\ (forall name v,
          Forall (fun e => re_search (namePattern e) (lower name) = Some false)
            (entries c) ->
          resolveImageOrBox c name v = Resolved (default c)).
Proof.
  rewrite docker_images_decoded. unfold docker_images_catalog.
  eexists. eexists. eexists.
  split; [reflexivity|]. split; [reflexivity|].
  split; [reflexivity|].
  split; [vm_compute; reflexivity|].
  split; [vm_compute; reflexivity|].
  split; [reflexivity|].
  split; [discriminate|].
  split; [vm_compute; reflexivity|].
  split; [reflexivity|].
  split.
  - intros before e after name v E F M. unfold resolveImageOrBox.
    rewrite E. apply resolve_entry_first_match; assumption.
  - intros name v F. unfold resolveImageOrBox.
    apply resolve_entry_no_match. exact F.
Qed.

(** C10.  In the [vagrant_boxes] catalog of the bundled parameters the third
    version rule of the CentOS entry, of pattern [^7\.], carries a record
    whose architectures are x86_64 alone; every other record of the catalog
    (rules and defaults) has i686 and x86_64; every CentOS version that
    starts with [7.] resolves to that record, in which no box stands for
    i686. *)
Theorem centos_7_without_i686 :
  exists c before centos after r5 r6 r7,
    bundled_catalog "vagrant_boxes" = Some c
    /\ entries c = (before ++ centos :: after)%list
    /\ namePattern centos = "^centos( linux)?$"
    /\ versionRules centos = [r5; r6; r7]
    /\ versionPattern r7 = "^7\."
    /\ record r7 = centos_7_2
    /\ map fst (architectures centos_7_2) = ["x86_64"]
    /\ box_for (architectures centos_7_2) "i686" = None
    /\ box_for (architectures centos_7_2) "x86_64" = Some "bento/centos-7.2"
    /\ (forall r, In r (catalog_records c) -> r <> centos_7_2 ->
          map fst (architectures r) = ["i686"; "x86_64"])
    /\ (forall rest,
          resolveImageOrBox c "CentOS" ("7." ++ rest) = Resolved centos_7_2).
Proof.
  rewrite vagrant_boxes_decoded. unfold vagrant_boxes_catalog.
  eexists.
  eexists [_; _]. eexists. eexists. eexists. eexists. eexists.
  split; [reflexivity|]. split; [reflexivity|].
  split; [reflexivity|]. split; [reflexivity|].
  split; [reflexivity|]. split; [reflexivity|].
  split; [reflexivity|]. split; [reflexivity|]. split; [reflexivity|].
  split.
  - refine (proj1 (Forall_forall
              (fun r => r <> centos_7_2
                        -> map fst (architectures r) = ["i686"; "x86_64"]) _) _).
    cbn [catalog_records default entries flat_map versionRules entryDefault
         map record app].
    repeat (constructor;
            [ intros N;
              first [ reflexivity | exfalso; apply N; reflexivity ] | ]).
    constructor.
  - intros rest. unfold resolveImageOrBox.
    cbn [entries default].
    match goal with
    | |- resolve_entry (?a :: ?b :: ?e :: ?l) ?d ?n ?v = _ =>
        change (resolve_entry ([a; b] ++ e :: l)%list d n v = Resolved centos_7_2);
        rewrite (resolve_entry_first_match [a; b] l e d n v)
    end.
    + cbn [versionRules entryDefault].
      match goal with
      | |- resolve_version (?a :: ?b :: ?e :: ?l) ?d ?v = _ =>
          change (resolve_version ([a; b] ++ e :: l)%list d v = Resolved centos_7_2);
          rewrite (resolve_version_first_match [a; b] l e d v)
      end.
      * reflexivity.
      * repeat constructor; cbn [versionPattern]; unfold re_search;
          [ change (compile "^5\.")
              with (Some (Seq Bol (Seq (Chr "5") (Seq (Chr ".") Empty))))
          | change (compile "^6\.")
              with (Some (Seq Bol (Seq (Chr "6") (Seq (Chr ".") Empty)))) ];
          cbn [append search_from matches andb orb Ascii.eqb Bool.eqb];
          rewrite search_from_anchored; reflexivity.
      * cbn [versionPattern]. unfold re_search.
        change (compile "^7\.")
          with (Some (Seq Bol (Seq (Chr "7") (Seq (Chr ".") Empty)))).
        cbn [append search_from matches andb orb Ascii.eqb Bool.eqb].
        reflexivity.
    + repeat constructor; vm_compute; reflexivity.
    + vm_compute. reflexivity.
Qed.

(** ** Further properties of [update_parameters] and [get_parameter] *)

(** X1.  When the download raises, [update_parameters] returns with the
    decoded bundled string in [parameters], the message of line 56 logged,
    one address asked and the cached file as it was. *)
Theorem transport_failure (w : world) (st : state) (url : string) :
  parameters st = JNull ->
  remote_base (environ w) = Some url ->
  download_file w (url ++ version w) (cache st) = None ->
  update_parameters w st
  = Returned tt {| parameters := bundled_dataset; cache := cache st;
                   log := msg_download :: log st;
                   requests := (url ++ version w) :: requests st |}.
Proof.
  intros H B D. rewrite (update_parameters_first w st H), B.
  unfold download_parameters. cbn [request cache]. rewrite D.
  rewrite use_bundled_returns. reflexivity.
Qed.

Lemma transport_failure_witness :
  update_parameters (serving None None) (initial (Some "old"))
  = Returned tt {| parameters := bundled_dataset; cache := Some "old";
                   log := [msg_download];
                   requests := [default_url ++ "1.0.8"] |}.
Proof.
  apply (transport_failure (serving None None) (initial (Some "old")) default_url);
    reflexivity.
Defined.

(** X2.  A downloaded object whose version is in the window becomes
    [parameters]; nothing is logged, the cached file holds the downloaded
    text and one address has been asked. *)
Theorem accepted_document (w : world) (st : state) (url content : string)
    (d : dict) (c : ascii) (r : string) :
  parameters st = JNull ->
  remote_base (environ w) = Some url ->
  download_file w (url ++ version w) (cache st) = Some content ->
  json_loads content = Some (JObj d) ->
  dict_get d "version" (JStr "1.0") = JStr (String c r) ->
  compatible (LooseVersion (String c r)) = true ->
  update_parameters w st
  = Returned tt (downloaded st (url ++ version w) content (JObj d)).
Proof.
  intros H B D L V C. rewrite (update_parameters_first w st H), B.
  rewrite (download_parameters_decoded w st url content (JObj d) D L).
  unfold check_version. cbn [downloaded parameters]. rewrite V, C. reflexivity.
Qed.

Lemma accepted_document_witness :
  update_parameters (serving None (Some (q "{`version`: `1.1.4`, `x`: []}")))
    (initial None)
  = Returned tt
      (downloaded (initial None) (default_url ++ "1.0.8")
         (q "{`version`: `1.1.4`, `x`: []}")
         (JObj [("version", JStr "1.1.4"); ("x", JArr [])])).
Proof.
  apply (accepted_document
           (serving None (Some (q "{`version`: `1.1.4`, `x`: []}")))
           (initial None) default_url _ _ "1"%char ".1.4"); reflexivity.
Defined.

(** X3.  A downloaded object whose version is outside the window is replaced
    by the decoded bundled string and the message of line 74 names the
    version as it was written; the cached file is not removed (only a file
    that does not decode is). *)
Theorem incompatible_document_stays_cached (w : world) (st : state)
    (url content : string) (d : dict) (c : ascii) (r : string) :
  parameters st = JNull ->
  remote_base (environ w) = Some url ->
  download_file w (url ++ version w) (cache st) = Some content ->
  json_loads content = Some (JObj d) ->
  dict_get d "version" (JStr "1.0") = JStr (String c r) ->
  compatible (LooseVersion (String c r)) = false ->
  update_parameters w st
  = Returned tt {| parameters := bundled_dataset; cache := Some content;
                   log := msg_version (String c r) :: log st;
                   requests := (url ++ version w) :: requests st |}.
Proof.
  intros H B D L V C. rewrite (update_parameters_first w st H), B.
  rewrite (download_parameters_decoded w st url content (JObj d) D L).
  unfold check_version. cbn [downloaded parameters]. rewrite V, C.
  rewrite use_bundled_returns. reflexivity.
Qed.

Lemma incompatible_document_stays_cached_witness :
  update_parameters (serving None (Some (q "{`version`: `2.0`}"))) (initial None)
  = Returned tt {| parameters := bundled_dataset;
                   cache := Some (q "{`version`: `2.0`}");
                   log := [msg_version "2.0"];
                   requests := [default_url ++ "1.0.8"] |}.
Proof.
  apply (incompatible_document_stays_cached
           (serving None (Some (q "{`version`: `2.0`}")))
           (initial None) default_url _ [("version", JStr "2.0")] "2"%char ".0");
    reflexivity.
Defined.

(** X4.  A downloaded object without a [version] member is never accepted,
    whatever else it holds: it is read as version 1.0 and replaced by the
    decoded bundled string. *)
Theorem missing_version_rejected (w : world) (st : state)
    (url content : string) (d : dict) :
  parameters st = JNull ->
  remote_base (environ w) = Some url ->
  download_file w (url ++ version w) (cache st) = Some content ->
  json_loads content = Some (JObj d) ->
  ~ In "version" (dict_keys d) ->
  update_parameters w st
  = Returned tt {| parameters := bundled_dataset; cache := Some content;
                   log := msg_version "1.0" :: log st;
                   requests := (url ++ version w) :: requests st |}.
Proof.
  intros H B D L N.
  assert (X : dict_lookup d "version" = None).
  { clear L. induction d as [|[k v] rest IH]; [reflexivity|].
    cbn [dict_lookup]. destruct (String.eqb "version" k) eqn:E.
    - apply String.eqb_eq in E. subst k. exfalso. apply N. left. reflexivity.
    - apply IH. intros I. apply N. right. exact I. }
  rewrite (update_parameters_first w st H), B.
  rewrite (download_parameters_decoded w st url content (JObj d) D L).
  unfold check_version, dict_get. cbn [downloaded parameters]. rewrite X.
  change (compatible (LooseVersion "1.0")) with false. cbv iota.
  rewrite use_bundled_returns. reflexivity.
Qed.

Lemma missing_version_rejected_witness :
  update_parameters (serving None (Some (q "{`docker_images`: {}}")))
    (initial None)
  = Returned tt {| parameters := bundled_dataset;
                   cache := Some (q "{`docker_images`: {}}");
                   log := [msg_version "1.0"];
                   requests := [default_url ++ "1.0.8"] |}.
Proof.
  apply (missing_version_rejected
           (serving None (Some (q "{`docker_images`: {}}")))
           (initial None) default_url _ [("docker_images", JObj [])]);
    try reflexivity.
  cbn. intros [E|[]]. discriminate E.
Defined.

(** X5.  When the downloaded text decodes to a document that is not an
    object, or to an object whose [version] is not a non-empty string, a
    first call of [update_parameters] raises: it leaves that document in
    [parameters] and the text in the cached file, logs nothing and does not
    fall back on the bundled string. *)
Theorem ill_versioned_document_raises (w : world) (st : state)
    (url content : string) (doc : json) :
  parameters st = JNull ->
  remote_base (environ w) = Some url ->
  download_file w (url ++ version w) (cache st) = Some content ->
  json_loads content = Some doc ->
  well_versioned doc = false ->
  update_parameters w st
  = Raised {| parameters := doc; cache := Some content; log := log st;
              requests := (url ++ version w) :: requests st |}.
Proof.
  intros H B D L V.
  exact (update_parameters_ill w st url content doc H B D L V).
Qed.

Lemma ill_versioned_document_raises_witness :
  update_parameters (serving None (Some "[1, 2]")) (initial None)
  = Raised {| parameters := JArr [JNum "1"; JNum "2"];
              cache := Some "[1, 2]"; log := [];
              requests := [default_url ++ "1.0.8"] |}.
Proof.
  apply (ill_versioned_document_raises (serving None (Some "[1, 2]"))
           (initial None) default_url "[1, 2]"); reflexivity.
Defined.

(** X6.  Once a downloaded document that is neither an object nor null has
    made the first call raise, the process keeps it: every later
    [get_parameter], whatever its surroundings, raises again, asks nothing
    of the download and never falls back on the bundled string. *)
Theorem non_object_document_stays (w : world) (st : state)
    (url content : string) (doc : json) :
  parameters st = JNull ->
  remote_base (environ w) = Some url ->
  download_file w (url ++ version w) (cache st) = Some content ->
  json_loads content = Some doc ->
  doc <> JNull ->
  (forall d, doc <> JObj d) ->
  forall s,
    get_parameter w st s = Raised (downloaded st (url ++ version w) content doc)
    /\ forall w' s',
         get_parameter w' (downloaded st (url ++ version w) content doc) s'
         = Raised (downloaded st (url ++ version w) content doc).
Proof.
  intros H B D L N O s.
  assert (V : well_versioned doc = false).
  { destruct doc; try reflexivity. exfalso. exact (O _ eq_refl). }
  split.
  - unfold get_parameter. rewrite H. cbn [is_None].
    rewrite (update_parameters_ill w st url content doc H B D L V). reflexivity.
  - intros w' s'. unfold get_parameter, lookup_section.
    cbn [downloaded parameters].
    destruct doc; try reflexivity; [contradiction | exfalso; exact (O _ eq_refl)].
Qed.

Lemma non_object_document_stays_witness :
  get_parameter (serving None (Some (q "`moved`"))) (initial None) "docker_images"
  = Raised (downloaded (initial None) (default_url ++ "1.0.8") (q "`moved`")
              (JStr "moved"))
  /\ forall w' s',
       get_parameter w'
         (downloaded (initial None) (default_url ++ "1.0.8") (q "`moved`")
            (JStr "moved")) s'
       = Raised (downloaded (initial None) (default_url ++ "1.0.8") (q "`moved`")
                   (JStr "moved")).
Proof.
  apply (non_object_document_stays (serving None (Some (q "`moved`")))
           (initial None) default_url (q "`moved`") (JStr "moved"));
    try reflexivity; discriminate.
Defined.

(** X7.  When the downloaded text is the JSON [null], the first call raises
    with [parameters] still unset, so a caller that goes on and calls
    [get_parameter] again makes the module ask the download again. *)
Theorem null_document_asks_again (w : world) (st : state)
    (url content : string) (s : string) :
  parameters st = JNull ->
  remote_base (environ w) = Some url ->
  download_file w (url ++ version w) (cache st) = Some content ->
  json_loads content = Some JNull ->
  get_parameter w st s = Raised (downloaded st (url ++ version w) content JNull)
  /\ forall w' url' s',
       remote_base (environ w') = Some url' ->
       requests (final (get_parameter w'
                   (downloaded st (url ++ version w) content JNull) s'))
       = (url' ++ version w') :: (url ++ version w) :: requests st.
Proof.
  intros H B D L. split.
  - unfold get_parameter. rewrite H. cbn [is_None].
    rewrite (update_parameters_ill w st url content JNull H B D L eq_refl).
    reflexivity.
  - intros w' url' s' B'.
    rewrite get_parameter_final by reflexivity.
    rewrite update_parameters_first by reflexivity. rewrite B'.
    destruct (download_parameters_cases w'
                (downloaded st (url ++ version w) content JNull) url') as [R _].
    exact R.
Qed.

Lemma null_document_asks_again_witness :
  requests (final (get_parameter (serving None (Some "null"))
              (downloaded (initial None) (default_url ++ "1.0.8") "null" JNull)
              "busybox_url"))
  = [default_url ++ "1.0.8"; default_url ++ "1.0.8"].
Proof.
  exact (proj2 (null_document_asks_again (serving None (Some "null"))
                  (initial None) default_url "null" "busybox_url"
                  eq_refl eq_refl eq_refl eq_refl)
           (serving None (Some "null")) default_url "busybox_url" eq_refl).
Defined.

(** X8.  When the downloaded document is an object whose [version] is not a
    non-empty string, the first call raises before the test of line 71 and
    leaves the document in [parameters]; a caller that goes on is then
    answered from that document, which never passed the version test. *)
Theorem unchecked_document_answers (w : world) (st : state)
    (url content : string) (d : dict) :
  parameters st = JNull ->
  remote_base (environ w) = Some url ->
  download_file w (url ++ version w) (cache st) = Some content ->
  json_loads content = Some (JObj d) ->
  well_versioned (JObj d) = false ->
  update_parameters w st
  = Raised (downloaded st (url ++ version w) content (JObj d))
  /\ dataset_compatible (JObj d) = false
  /\ forall w' s,
       get_parameter w' (downloaded st (url ++ version w) content (JObj d)) s
       = Returned (dict_get d s JNull)
           (downloaded st (url ++ version w) content (JObj d)).
Proof.
  intros H B D L V. split; [|split].
  - exact (update_parameters_ill w st url content (JObj d) H B D L V).
  - unfold dataset_compatible. unfold well_versioned in V.
    destruct (dict_get d "version" (JStr "1.0")) as [| | |v| |]; try reflexivity.
    destruct v; [reflexivity | discriminate V].
  - intros w' s. apply get_parameter_loaded. reflexivity.
Qed.

Lemma unchecked_document_answers_witness :
  get_parameter (serving None None)
    (downloaded (initial None) (default_url ++ "1.0.8")
       (q "{`version`: 3, `busybox_url`: `mine`}")
       (JObj [("version", JNum "3"); ("busybox_url", JStr "mine")]))
    "busybox_url"
  = Returned (JStr "mine")
      (downloaded (initial None) (default_url ++ "1.0.8")
         (q "{`version`: 3, `busybox_url`: `mine`}")
         (JObj [("version", JNum "3"); ("busybox_url", JStr "mine")])).
Proof.
  exact (proj2 (proj2 (unchecked_document_answers
                  (serving None (Some (q "{`version`: 3, `busybox_url`: `mine`}")))
                  (initial None) default_url
                  (q "{`version`: 3, `busybox_url`: `mine`}")
                  [("version", JNum "3"); ("busybox_url", JStr "mine")]
                  eq_refl eq_refl eq_refl eq_refl eq_refl))
           (serving None None) "busybox_url").
Defined.

Ltac by_comparisons :=
  repeat match goal with
         | |- context [Z.compare ?a ?b] => destruct (Z.compare_spec a b)
         end;
  try lia; cbn; try discriminate;
  try (intros _; subst; eexists; reflexivity);
  try (match goal with
       | |- context [cmp_version ?l []] => destruct l
       | |- context [cmp_version3 ?l []] => destruct l
       end; discriminate).

Lemma compatible_shape (ver : list component) :
  compatible ver = true <-> exists rest, ver = CInt 1 :: CInt 1 :: rest.
Proof.
  unfold compatible, version_le, version_lt.
  change (LooseVersion "1.1") with [CInt 1; CInt 1].
  change (LooseVersion "1.2") with [CInt 1; CInt 2].
  split.
  - destruct ver as [|[x|x] [|[y|y] rest]]; cbn [cmp_version cmp_component];
      try discriminate; by_comparisons.
  - intros [rest ->]. cbn [cmp_version cmp_component Z.compare Pos.compare
                           Pos.compare_cont].
    destruct rest; reflexivity.
Qed.

Lemma compatible3_shape (ver : list component) :
  compatible3 ver = Some true <-> exists rest, ver = CInt 1 :: CInt 1 :: rest.
Proof.
  unfold compatible3.
  change (LooseVersion "1.1") with [CInt 1; CInt 1].
  change (LooseVersion "1.2") with [CInt 1; CInt 2].
  split.
  - destruct ver as [|[x|x] [|[y|y] rest]];
      cbn [cmp_version3 cmp_component3]; try discriminate; by_comparisons.
  - intros [rest ->]. cbn [cmp_version3 cmp_component3 Z.compare Pos.compare
                           Pos.compare_cont].
    destruct rest; reflexivity.
Qed.

(** X9.  The test of line 71 accepts a version exactly when its first two
    components are the integers 1 and 1, whatever follows: 1.1, 1.1.9,
    1.1rc2 and 01.1 pass; 1, 1.2 and 1.x do not. *)
Theorem compatible_iff_one_one (ver : list component) :
  (compatible ver = true <-> exists rest, ver = CInt 1 :: CInt 1 :: rest)
  /\ map (fun v => compatible (LooseVersion v))
       ["1.1"; "1.1.9"; "1.1rc2"; "01.1"; "1"; "1.2"; "1.x"]
     = [true; true; true; true; false; false; false].
Proof.
  split; [exact (compatible_shape ver) | vm_compute; reflexivity].
Qed.

(** X10.  Under the comparison of Python 3, in which an integer against a
    string is a TypeError, line 71 accepts the same versions as under
    Python 2; where it raises, Python 2 rejects. *)
Theorem compatible_on_python3 (ver : list component) :
  (compatible3 ver = Some true <-> compatible ver = true)
  /\ (compatible3 ver = None -> compatible ver = false)
  /\ compatible3 (LooseVersion "1.x") = None.
Proof.
  pose proof (compatible3_shape ver) as S3.
  split; [|split].
  - rewrite S3. symmetry. apply compatible_shape.
  - intros N. destruct (compatible ver) eqn:C; [|reflexivity].
    apply compatible_shape in C. apply S3 in C. congruence.
  - vm_compute. reflexivity.
Qed.

Lemma compatible_on_python3_witness :
  compatible3 (LooseVersion "1.x") = None
  /\ compatible (LooseVersion "1.x") = false.
Proof.
  split; [reflexivity|].
  apply (proj1 (proj2 (compatible_on_python3 (LooseVersion "1.x")))).
  reflexivity.
Defined.

(** What one call of [update_parameters] may add to the log and to the
    addresses asked, and when it leaves the cached file alone. *)
Lemma update_parameters_frame (w : world) (st : state) :
  exists asked logged,
    requests (final (update_parameters w st)) = (asked ++ requests st)%list
    /\ log (final (update_parameters w st)) = (logged ++ log st)%list
    /\ length logged <= length asked
    /\ length asked <= 1
    /\ (asked = [] -> cache (final (update_parameters w st)) = cache st).
Proof.
  destruct (is_None (parameters st)) eqn:E.
  - apply is_None_true in E. rewrite (update_parameters_first w st E).
    destruct (remote_base (environ w)) as [url|].
    + unfold download_parameters. cbn [request cache].
      destruct (download_file w (url ++ version w) (cache st)) as [content|].
      * destruct (json_loads content) as [doc|].
        -- match goal with |- context [check_version ?s] =>
             destruct (check_version_cases s) as [[R _]|[[msg [R _]]|R]];
               rewrite R
           end.
           ++ exists [url ++ version w], []. cbn. repeat split; try lia; try discriminate.
           ++ exists [url ++ version w], [msg]. cbn. repeat split; try lia; try discriminate.
           ++ exists [url ++ version w], []. cbn. repeat split; try lia; try discriminate.
        -- rewrite use_bundled_returns.
           exists [url ++ version w], [msg_load].
           destruct (remove_raises w); cbn; repeat split; try lia; try discriminate.
      * rewrite use_bundled_returns.
        exists [url ++ version w], [msg_download]. cbn.
        repeat split; try lia; try discriminate.
    + rewrite use_bundled_returns. exists [], []. cbn. repeat split; lia.
  - assert (N : parameters st <> JNull).
    { intros X. rewrite X in E. discriminate. }
    rewrite (update_parameters_loaded w st N).
    exists [], []. cbn. repeat split; lia.
Qed.

(** X11.  One call of [update_parameters] asks at most one address of the
    download and logs at most one message, and logs one only if it asked;
    a call that asked nothing leaves the cached file as it was. *)
Theorem update_parameters_effects (w : world) (st : state) :
  exists asked logged,
    requests (final (update_parameters w st)) = (asked ++ requests st)%list
    /\ log (final (update_parameters w st)) = (logged ++ log st)%list
    /\ length logged <= length asked
    /\ length asked <= 1
    /\ (asked = [] -> cache (final (update_parameters w st)) = cache st).
Proof. exact (update_parameters_frame w st). Qed.

(** X12.  In a process that starts with [parameters] unset and an empty log,
    whatever the calls of [get_parameter] and their surroundings, at most
    one message is ever logged, and none unless the download was asked. *)
Theorem run_logs_at_most_once (calls : list (world * string)) (c : option string) :
  length (log (run calls (initial c)))
  <= length (requests (run calls (initial c)))
  /\ length (requests (run calls (initial c))) <= 1.
Proof.
  destruct calls as [|[w s] rest]; [cbn; lia|]. cbn [run].
  destruct (update_parameters_frame w (initial c))
    as [asked [logged [R [G [A [B _]]]]]].
  cbn [initial requests log] in R, G. rewrite app_nil_r in R, G.
  destruct (get_parameter_first w (initial c) s eq_refl) as [GR GS].
  destruct (update_parameters w (initial c)) as [[] st1|st1] eqn:U.
  - destruct (GS st1 eq_refl) as [d [P G']]. rewrite G'.
    rewrite (run_loaded rest st1 d P). cbn [final] in R, G.
    rewrite R, G. lia.
  - rewrite (GR st1 eq_refl). cbn [final] in R, G. rewrite R, G. lia.
Qed.

Lemma resolve_version_total (rules : list VersionRule) (dflt : ResolvedRecord)
    (v : string) :
  forallb (fun r => compiles (versionPattern r)) rules = true ->
  exists r, resolve_version rules dflt v = Resolved r
            /\ In r (map record rules ++ [dflt])%list.
Proof.
  induction rules as [|rule rest IH]; intros F.
  - exists dflt. split; [reflexivity | left; reflexivity].
  - cbn [forallb] in F. apply andb_true_iff in F as [C F].
    cbn [resolve_version]. unfold re_search. unfold compiles in C.
    destruct (compile (versionPattern rule)) as [rx|]; [|discriminate C].
    destruct (search_from rx true v).
    + exists (record rule). split; [reflexivity | left; reflexivity].
    + destruct (IH F) as [r [R I]]. exists r. split; [exact R|].
      right. exact I.
Qed.

Lemma resolve_entry_total (es : list Entry) (dflt : ResolvedRecord)
    (name v : string) :
  forallb (fun e =>
             compiles (namePattern e)
             && forallb (fun r => compiles (versionPattern r)) (versionRules e))
    es = true ->
  exists r, resolve_entry es dflt name v = Resolved r
            /\ In r (dflt :: flat_map (fun e => (map record (versionRules e)
                                                 ++ [entryDefault e])%list) es).
Proof.
  induction es as [|e rest IH]; intros F.
  - exists dflt. split; [reflexivity | left; reflexivity].
  - cbn [forallb] in F. apply andb_true_iff in F as [C F].
    apply andb_true_iff in C as [C1 C2].
    cbn [resolve_entry]. unfold re_search. unfold compiles in C1.
    destruct (compile (namePattern e)) as [rx|]; [|discriminate C1].
    destruct (search_from rx true name).
    + destruct (resolve_version_total (versionRules e) (entryDefault e) v C2)
        as [r [R I]].
      exists r. split; [exact R|]. right. cbn [flat_map].
      apply in_or_app. left. exact I.
    + destruct (IH F) as [r [R I]]. exists r. split; [exact R|].
      destruct I as [I|I]; [left; exact I|].
      right. cbn [flat_map]. apply in_or_app. right. exact I.
Qed.

(** X13.  The three catalogs of the bundled string (docker_images,
    vagrant_boxes, vagrant_boxes_x) have a default, entries with a name
    pattern, version rules and a default of their own, and only well-formed
    patterns; so whatever the name and the version, the resolution over them
    never ends in an error and gives one of the records written in the
    catalog. *)
Theorem bundled_catalogs_resolve (section : string) :
  In section ["docker_images"; "vagrant_boxes"; "vagrant_boxes_x"] ->
  exists c,
    bundled_catalog section = Some c
    /\ patterns_compile c = true
    /\ forall name v,
         exists r, resolveImageOrBox c name v = Resolved r
                   /\ In r (catalog_records c).
Proof.
  intros I.
  assert (D : exists c, bundled_catalog section = Some c
                        /\ patterns_compile c = true).
  { cbn [In] in I.
    destruct I as [<-|[<-|[<-|[]]]];
      match goal with
      | |- context [bundled_catalog ?name] =>
          assert (X : match bundled_catalog name with
                      | Some c' => patterns_compile c'
                      | None => false
                      end = true) by (vm_compute; reflexivity);
          destruct (bundled_catalog name) as [c|];
          [ exists c; split; [reflexivity | exact X] | discriminate X ]
      end. }
  destruct D as [c [E P]]. exists c. split; [exact E|]. split; [exact P|].
  intros name v. unfold resolveImageOrBox, catalog_records.
  apply resolve_entry_total. exact P.
Qed.

Lemma bundled_catalogs_resolve_witness :
  exists c,
    bundled_catalog "vagrant_boxes_x" = Some c
    /\ patterns_compile c = true
    /\ forall name v,
         exists r, resolveImageOrBox c name v = Resolved r
                   /\ In r (catalog_records c).
Proof.
  apply (bundled_catalogs_resolve "vagrant_boxes_x").
  right. right. left. reflexivity.
Defined.

(** X14.  With REPROZIP_PARAMETERS set to a value that is neither an address
    nor one of the enabling values, a process never asks the download, never
    logs, never touches the cached file and never raises: after the first
    [get_parameter] the state is the initial one with the decoded bundled
    string in [parameters], and it stays so whatever the later calls. *)
Theorem offline_process (w : world) (s : string)
    (rest : list (world * string)) (c : option string) :
  remote_base (environ w) = None ->
  returned (get_parameter w (initial c) s) = true
  /\ run ((w, s) :: rest) (initial c)
     = {| parameters := bundled_dataset; cache := c; log := []; requests := [] |}.
Proof.
  intros B.
  destruct bundled_dataset_dict as [d [D _]].
  assert (U : update_parameters w (initial c)
              = Returned tt (set_parameters (initial c) bundled_dataset)).
  { rewrite update_parameters_first by reflexivity. rewrite B.
    apply use_bundled_returns. }
  assert (G : get_parameter w (initial c) s
              = Returned (dict_get d s JNull)
                  (set_parameters (initial c) bundled_dataset)).
  { unfold get_parameter. cbn [initial parameters is_None]. rewrite U.
    unfold lookup_section. cbn [set_parameters parameters]. rewrite D.
    reflexivity. }
  split; [rewrite G; reflexivity|].
  cbn [run]. rewrite G.
  rewrite (run_loaded rest _ d); [reflexivity|].
  cbn [set_parameters parameters]. exact D.
Qed.

Lemma offline_process_witness :
  run [(serving (Some "off") (Some "{}"), "busybox_url");
       (serving None (Some "{}"), "rpzsudo_url")] (initial (Some "kept"))
  = {| parameters := bundled_dataset; cache := Some "kept"; log := [];
       requests := [] |}.
Proof.
  apply (offline_process (serving (Some "off") (Some "{}")) "busybox_url"
           [(serving None (Some "{}"), "rpzsudo_url")] (Some "kept")).
  reflexivity.
Defined.

(** X15.  An accepted downloaded document replaces the bundled parameters as
    a whole, nothing is merged: a section it does not have is answered None
    by [get_parameter], also when the bundled string has that section. *)
Theorem accepted_document_not_merged (w : world) (st : state)
    (url content : string) (d : dict) (s : string) :
  parameters st = JNull ->
  remote_base (environ w) = Some url ->
  download_file w (url ++ version w) (cache st) = Some content ->
  json_loads content = Some (JObj d) ->
  dataset_compatible (JObj d) = true ->
  get_parameter w st s
  = Returned (dict_get d s JNull)
      (downloaded st (url ++ version w) content (JObj d))
  /\ (dict_lookup d s = None ->
      get_parameter w st s
      = Returned JNull (downloaded st (url ++ version w) content (JObj d))).
Proof.
  intros H B D L C.
  assert (U : update_parameters w st
              = Returned tt (downloaded st (url ++ version w) content (JObj d))).
  { rewrite (update_parameters_first w st H), B.
    rewrite (download_parameters_decoded w st url content (JObj d) D L).
    unfold dataset_compatible in C. unfold check_version.
    cbn [downloaded parameters].
    destruct (dict_get d "version" (JStr "1.0")) as [| | |v| |]; try discriminate C.
    destruct v as [|a r]; [discriminate C|]. rewrite C. reflexivity. }
  assert (G : get_parameter w st s
              = Returned (dict_get d s JNull)
                  (downloaded st (url ++ version w) content (JObj d))).
  { unfold get_parameter. rewrite H. cbn [is_None]. rewrite U. reflexivity. }
  split; [exact G|]. intros N. rewrite G. unfold dict_get. rewrite N.
  reflexivity.
Qed.

Lemma accepted_document_not_merged_witness :
  get_parameter (serving None (Some (q "{`version`: `1.1`}"))) (initial None)
    "docker_images"
  = Returned JNull
      (downloaded (initial None) (default_url ++ "1.0.8")
         (q "{`version`: `1.1`}") (JObj [("version", JStr "1.1")])).
Proof.
  apply (proj2 (accepted_document_not_merged
                  (serving None (Some (q "{`version`: `1.1`}"))) (initial None)
                  default_url (q "{`version`: `1.1`}")
                  [("version", JStr "1.1")] "docker_images"
                  eq_refl eq_refl eq_refl eq_refl eq_refl)).
  reflexivity.
Defined.
